(** * Study-jam admin panel: the upload reconciliation of [app.py]

    A shallow embedding of [normalize_name] and [upload_file] and the
    properties of the reconciliation they implement.

    Text is a list of characters, a character being a code point below 256:
    on these Python's [str.lower], [str.isspace] and the character class
    [[^a-z0-9]] act one character at a time, as written out below. *)

From Stdlib Require Import List Ascii String Arith Lia Bool.
From Stdlib Require Import Sorted Permutation Mergesort Orders.
From Stdlib Require Import DecimalString.
Import ListNotations.
Open Scope string_scope.
Open Scope list_scope.
Open Scope nat_scope.

Set Implicit Arguments.

(** ** Text *)

Definition str := list ascii.

Coercion list_ascii_of_string : string >-> list.

Definition str_eqb (a b : str) : bool :=
  if list_eq_dec ascii_dec a b then true else false.

Definition code (c : ascii) : nat := nat_of_ascii c.

Definition in_range (lo hi : nat) (c : ascii) : bool :=
  (lo <=? code c) && (code c <=? hi).

(** [str.isspace] on one character. *)
Definition is_space (c : ascii) : bool :=
  in_range 9 13 c || in_range 28 32 c || (code c =? 133) || (code c =? 160).

(** Characters with a lowercase image: A-Z and the Latin-1 capitals. *)
Definition is_upper (c : ascii) : bool :=
  in_range 65 90 c || (in_range 192 222 c && negb (code c =? 215)).

Definition lower_char (c : ascii) : ascii :=
  if is_upper c then ascii_of_nat (code c + 32) else c.

(** [s.lower()] *)
Definition lower (s : str) : str := map lower_char s.

(** The class [[a-z0-9]] of the pattern in [normalize_name]. *)
Definition is_alnum (c : ascii) : bool :=
  in_range 97 122 c || in_range 48 57 c.

Definition is_underscore (c : ascii) : bool := code c =? 95.

(** [s.lstrip(chars)], [s.rstrip(chars)] and [s.strip(chars)], the set of
    characters given by its membership test. *)
Fixpoint lstrip_of (p : ascii -> bool) (s : str) : str :=
  match s with
  | [] => []
  | c :: t => if p c then lstrip_of p t else s
  end.

Fixpoint rstrip_of (p : ascii -> bool) (s : str) : str :=
  match s with
  | [] => []
  | c :: t =>
      match rstrip_of p t with
      | [] => if p c then [] else [c]
      | r => c :: r
      end
  end.

Definition strip_of (p : ascii -> bool) (s : str) : str :=
  rstrip_of p (lstrip_of p s).

(** [s.strip()] *)
Definition strip (s : str) : str := strip_of is_space s.

Fixpoint starts_with (p s : str) : bool :=
  match p, s with
  | [], _ => true
  | _ :: _, [] => false
  | a :: p', b :: s' => if ascii_dec a b then starts_with p' s' else false
  end.

(** [s.replace(old, new)] for a non-empty [old]: the occurrences are taken
    from the left and do not overlap.  [skip] counts the characters of the
    occurrence just replaced that are still to be passed over. *)
Fixpoint replace_from (old new : str) (skip : nat) (s : str) : str :=
  match s with
  | [] => []
  | c :: t =>
      match skip with
      | S k => replace_from old new k t
      | O =>
          if starts_with old s
          then new ++ replace_from old new (List.length old - 1) t
          else c :: replace_from old new 0 t
      end
  end.

Definition replace (old new s : str) : str := replace_from old new 0 s.

(** [re.sub(r'[^a-z0-9]+', repl, s)]: every maximal run of characters outside
    the class becomes one [repl]; [in_run] tells that the run the current
    character belongs to has been replaced already. *)
Fixpoint sub_runs (repl : str) (in_run : bool) (s : str) : str :=
  match s with
  | [] => []
  | c :: t =>
      if is_alnum c then c :: sub_runs repl false t
      else if in_run then sub_runs repl true t
           else repl ++ sub_runs repl true t
  end.

Definition re_sub_non_alnum (repl s : str) : str := sub_runs repl false s.

(** [s.split(sep)] for a one-character separator. *)
Fixpoint split (sep : ascii) (s : str) : list str :=
  match s with
  | [] => [[]]
  | c :: t =>
      if ascii_dec c sep then [] :: split sep t
      else match split sep t with
           | p :: ps => (c :: p) :: ps
           | [] => [[c]]
           end
  end.

(** [sep.join(parts)] *)
Fixpoint join (sep : str) (parts : list str) : str :=
  match parts with
  | [] => []
  | [p] => p
  | p :: rest => p ++ sep ++ join sep rest
  end.

(** [str(n)] of a non-negative integer. *)
Definition str_of_nat (n : nat) : str :=
  list_ascii_of_string (NilEmpty.string_of_uint (Nat.to_uint n)).

(** ** The canonicalizer *)

Definition normalize_name (name : str) : str :=
  let s := lower name in
  let s := strip (replace "[skill badge]" "" s) in
  let s := replace "gen ai" "genai" s in
  let s := re_sub_non_alnum "_" s in
  strip_of is_underscore s.

(** The alphabet of a normalized key. *)
Definition is_key_char (c : ascii) : bool := is_alnum c || is_underscore c.

(** No character outside [[a-z0-9_]], and no underscore next to another;
    [prev] tells that the character before the text is an underscore. *)
Fixpoint single_seps (prev : bool) (s : str) : bool :=
  match s with
  | [] => true
  | c :: t =>
      if is_alnum c then single_seps false t
      else is_underscore c && negb prev && single_seps true t
  end.

Definition head_is (p : ascii -> bool) (s : str) : bool :=
  match s with [] => false | c :: _ => p c end.

(** The shape the data model gives a NormalizedKey. *)
Definition normalized_key (s : str) : Prop :=
  forallb is_key_char s = true /\
  single_seps false s = true /\
  head_is is_underscore s = false /\
  head_is is_underscore (rev s) = false.


(** ** Dictionaries, sets and sorting *)

(** A Python [dict] with text keys: the items in insertion order, no key
    twice. *)
Definition dict (V : Type) := list (str * V).

Fixpoint dict_get {V : Type} (k : str) (d : dict V) : option V :=
  match d with
  | [] => None
  | (k', v) :: t => if str_eqb k k' then Some v else dict_get k t
  end.

(** [d[k] = v]: a key already there keeps its place. *)
Fixpoint dict_set {V : Type} (k : str) (v : V) (d : dict V) : dict V :=
  match d with
  | [] => [(k, v)]
  | (k', v') :: t =>
      if str_eqb k k' then (k', v) :: t else (k', v') :: dict_set k v t
  end.

Definition keys {V : Type} (d : dict V) : list str := map fst d.

Definition mem (x : str) (l : list str) : bool := existsb (str_eqb x) l.

(** [s.add(x)] on a set of texts, kept as a list without repetition. *)
Definition set_add (x : str) (s : list str) : list str :=
  if mem x s then s else s ++ [x].

(** The order of Python on texts: the first differing code point decides. *)
Fixpoint str_leb (a b : str) : bool :=
  match a, b with
  | [], _ => true
  | _ :: _, [] => false
  | x :: a', y :: b' =>
      if code x <? code y then true
      else if code y <? code x then false
      else str_leb a' b'
  end.

Fixpoint insert_sorted (x : str) (l : list str) : list str :=
  match l with
  | [] => [x]
  | y :: t => if str_leb x y then x :: l else y :: insert_sorted x t
  end.

(** [sorted(l)] *)
Definition sorted (l : list str) : list str := fold_right insert_sorted [] l.

(** Truth value of a text, a list or a dict: false exactly when empty. *)
Definition truthy {A : Type} (s : list A) : bool :=
  match s with [] => false | _ :: _ => true end.

(** ** The uploaded table *)

(** A cell read by pandas: a missing value, or any other value, kept as the
    text [str] makes of it. *)
Inductive cell : Type :=
| NA
| Val (s : str).

(** [pd.notna(c)] *)
Definition notna (c : cell) : bool :=
  match c with NA => false | Val _ => true end.

(** [str(c)] *)
Definition str_of_cell (c : cell) : str :=
  match c with NA => "nan" | Val s => s end.

(** A row of [df.iterrows()]: the cells under the column labels. *)
Definition series := dict cell.

(** [row.get(label)]; the [None] of a label that is not there is a missing
    value to [pd.notna] as well. *)
Definition series_get (label : str) (row : series) : cell :=
  match dict_get label row with
  | Some c => c
  | None => NA
  end.

Record dataframe : Type := {
  columns : list str;
  cells : list (list cell)
}.

Definition iterrows (df : dataframe) : list series :=
  map (combine (columns df)) (cells df).

Definition required_columns : list str :=
  ["User Name" : str; "User Email" : str;
   "Names of Completed Skill Badges" : str].

(** ** The participant store *)

(** A raised exception, by the text [str(e)] gives. *)
Definition exn := str.

Inductive outcome (A : Type) : Type :=
| Returned (a : A)
| Raised (e : exn).
Arguments Returned {A} a.
Arguments Raised {A} e.

(** What [execute()] returns: the records and the count that was reported,
    if one was. *)
Record api_response : Type := {
  data : list (dict str);
  count : option nat
}.

(** The two requests the program sends to the table [participants]:
    [select("*").limit(1).execute()] and
    [update(update_data).eq('email', email).execute()]. *)
Class Store (S : Type) : Type := {
  select_sample : S -> outcome api_response * S;
  update_eq : dict str -> str -> S -> outcome api_response * S
}.

(** The uploaded file: its name and what the decoder pandas selects for
    that name makes of it. *)
Record upload : Type := {
  filename : str;
  read_table : outcome dataframe
}.

Record final_log : Type := {
  updates : list str;
  users_not_found : list str;
  mismatched_lab_names : list str
}.

(** The JSON answer: an error with its status, or the report. *)
Inductive http_response : Type :=
| Failure (status : nat) (error : str)
| Success (message : str) (details : final_log).

Definition TABLE_NAME : str := "participants".

Definition mismatch_line (lab_name : str) : str :=
  "'" ++ strip lab_name ++ "' from file did not match any database column.".

Definition updated_line (n : nat) (user_name : str) (labs : list str) : str :=
  "Updated " ++ str_of_nat n ++ " labs for '" ++ user_name ++ "': "
    ++ join ", " labs ++ ".".

Definition no_updates_line (user_name : str) : str :=
  "No new updates for '" ++ user_name ++ "' (data may already be current).".

Definition failed_line (user_name : str) (e : exn) : str :=
  "FAILED to update labs for '" ++ user_name ++ "'. Error: " ++ e.

(** [{normalize_name(col): col for col in original_columns}] *)
Definition build_column_map (original_columns : list str) : dict str :=
  fold_left (fun m col => dict_set (normalize_name col) col m)
            original_columns [].

(** The body of the loop over the labels of one row, on the payload and
    the mismatch set. *)
Definition stage_label (column_map : dict str)
    (acc : dict str * list str) (lab_name : str) : dict str * list str :=
  let (update_data, mismatched) := acc in
  if negb (truthy lab_name) then acc
  else
    let normalized_lab := normalize_name lab_name in
    match dict_get normalized_lab column_map with
    | Some original_column_name =>
        if truthy original_column_name
        then (dict_set original_column_name ("Yes" : str) update_data,
              mismatched)
        else (update_data, set_add (mismatch_line lab_name) mismatched)
    | None => (update_data, set_add (mismatch_line lab_name) mismatched)
    end.

Definition stage_labels (column_map : dict str) (completed_labs : list str)
    (mismatched : list str) : dict str * list str :=
  fold_left (stage_label column_map) completed_labs ([], mismatched).

(** [[lab.strip() for lab in s.split('|')]] *)
Definition split_labs (s : str) : list str := map strip (split "|" s).

(** ** Views of a row *)

(** The values the loop body computes from a row, named for the
    statements below. *)
Definition row_email (row : series) : str :=
  strip (str_of_cell (series_get "User Email" row)).

Definition row_user_name (row : series) : str :=
  let user_name_raw := series_get "User Name" row in
  if notna user_name_raw then strip (str_of_cell user_name_raw)
  else row_email row.

Definition row_has_labs (row : series) : bool :=
  let c := series_get "Names of Completed Skill Badges" row in
  notna c && truthy (strip (str_of_cell c)).

Definition row_labs (row : series) : list str :=
  split_labs (str_of_cell (series_get "Names of Completed Skill Badges" row)).

(** The field a label is staged under, if it is staged. *)
Definition stage_field (column_map : dict str) (lab_name : str) : option str :=
  if truthy lab_name then
    match dict_get (normalize_name lab_name) column_map with
    | Some col => if truthy col then Some col else None
    | None => None
    end
  else None.

(** The fields of the labels of a row that are staged, one per label, in
    the order of the labels. *)
Definition matched_fields (column_map : dict str) (labs : list str)
  : list str :=
  flat_map (fun lab => match stage_field column_map lab with
                       | Some col => [col]
                       | None => []
                       end) labs.

Definition row_payload (column_map : dict str) (row : series) : dict str :=
  fst (stage_labels column_map (row_labs row) []).

(** The update request a row gives rise to, if any: the payload and the
    email of the filter. *)
Definition row_request (column_map : dict str) (row : series)
  : list (dict str * str) :=
  if notna (series_get "User Email" row) && row_has_labs row
     && truthy (row_payload column_map row)
  then [(row_payload column_map row, row_email row)]
  else [].

(** An email cell that is missing, or empty once trimmed. *)
Definition blank_cell (c : cell) : bool :=
  negb (notna c) || negb (truthy (strip (str_of_cell c))).

Definition str_le (a b : str) : Prop := str_leb a b = true.

(** ** The run *)

Section Engine.

Context {S : Type} {store_api : Store S}.

(** What a run changes: the variables of [upload_file] that the loop
    updates, the store, and the update requests sent so far, oldest first
    (each the payload and the email of its equality filter). *)
Record state : Type := {
  update_log : list str;
  total_updates : nat;
  not_found_log : list str;
  mismatched_labs_log : list str;
  store : S;
  calls : list (dict str * str)
}.

(** The state with the variables as lines 84 to 87 set them. *)
Definition fresh (s : S) (sent : list (dict str * str)) : state :=
  {| update_log := []; total_updates := 0; not_found_log := [];
     mismatched_labs_log := []; store := s; calls := sent |}.

(** The state a request starts in. *)
Definition initial (s : S) : state := fresh s [].

(** A statement: it returns or raises, and leaves a state either way. *)
Definition M (A : Type) : Type := state -> outcome A * state.

Definition ret {A : Type} (a : A) : M A := fun st => (Returned a, st).

Definition raise {A : Type} (e : exn) : M A := fun st => (Raised e, st).

Definition bind {A B : Type} (m : M A) (k : A -> M B) : M B :=
  fun st =>
    match m st with
    | (Returned a, st') => k a st'
    | (Raised e, st') => (Raised e, st')
    end.

(** [try: m  except Exception as e: h e] *)
Definition try_except {A : Type} (m : M A) (h : exn -> M A) : M A :=
  fun st =>
    match m st with
    | (Returned a, st') => (Returned a, st')
    | (Raised e, st') => h e st'
    end.

Definition lift {A : Type} (o : outcome A) : M A := fun st => (o, st).

Definition get_state : M state := fun st => (Returned st, st).

Notation "x <- m ;; k" := (bind m (fun x => k))
  (at level 61, m at next level, right associativity).
Notation "m ;; k" := (bind m (fun _ => k))
  (at level 61, right associativity).

(** [for x in xs: body x] *)
Fixpoint for_each {A : Type} (xs : list A) (body : A -> M unit) : M unit :=
  match xs with
  | [] => ret tt
  | x :: rest => body x ;; for_each rest body
  end.

Definition append_log (line : str) : M unit := fun st =>
  (Returned tt,
   {| update_log := update_log st ++ [line];
      total_updates := total_updates st;
      not_found_log := not_found_log st;
      mismatched_labs_log := mismatched_labs_log st;
      store := store st; calls := calls st |}).

Definition add_total (n : nat) : M unit := fun st =>
  (Returned tt,
   {| update_log := update_log st;
      total_updates := total_updates st + n;
      not_found_log := not_found_log st;
      mismatched_labs_log := mismatched_labs_log st;
      store := store st; calls := calls st |}).

Definition set_mismatched (m : list str) : M unit := fun st =>
  (Returned tt,
   {| update_log := update_log st;
      total_updates := total_updates st;
      not_found_log := not_found_log st;
      mismatched_labs_log := m;
      store := store st; calls := calls st |}).

(** Lines 84 to 87. *)
Definition init_locals : M unit := fun st =>
  (Returned tt, fresh (store st) (calls st)).

(** [supabase.table(TABLE_NAME).select("*").limit(1).execute()] *)
Definition execute_select : M api_response := fun st =>
  let (r, s') := select_sample (store st) in
  (r,
   {| update_log := update_log st;
      total_updates := total_updates st;
      not_found_log := not_found_log st;
      mismatched_labs_log := mismatched_labs_log st;
      store := s'; calls := calls st |}).

(** [supabase.table(TABLE_NAME).update(update_data).eq('email', email).execute()] *)
Definition execute_update (update_data : dict str) (email : str)
  : M api_response := fun st =>
  let (r, s') := update_eq update_data email (store st) in
  (r,
   {| update_log := update_log st;
      total_updates := total_updates st;
      not_found_log := not_found_log st;
      mismatched_labs_log := mismatched_labs_log st;
      store := s'; calls := calls st ++ [(update_data, email)] |}).

(** [data[0]["name"]]: an [IndexError] on an empty list, a [KeyError] on a
    record without the key. *)
Definition first_name (data : list (dict str)) : M str :=
  match data with
  | [] => raise "list index out of range"
  | record :: _ =>
      match dict_get "name" record with
      | Some v => ret v
      | None => raise "'name'"
      end
  end.

Definition positive (count : option nat) : bool :=
  match count with
  | Some c => 0 <? c
  | None => false
  end.

(** Lines 118 to 134. *)
Definition apply_update (update_data : dict str) (email user_name : str)
  : M unit :=
  try_except
    (response <- execute_update update_data email ;;
     _ <- first_name (data response) ;;
     if positive (count response) then
       let num_labs_updated := List.length update_data in
       add_total num_labs_updated ;;
       append_log
         (updated_line num_labs_updated user_name (keys update_data))
     else
       append_log (no_updates_line user_name))
    (fun e => append_log (failed_line user_name e)).

(** The body of the loop over the rows, lines 90 to 134. *)
Definition process_row (column_map : dict str) (row : series) : M unit :=
  let user_name_raw := series_get "User Name" row in
  let email_raw := series_get "User Email" row in
  let completed_labs_str :=
    series_get "Names of Completed Skill Badges" row in
  if notna email_raw then
    let email := strip (str_of_cell email_raw) in
    let user_name :=
      if notna user_name_raw then strip (str_of_cell user_name_raw)
      else email in
    if notna completed_labs_str
       && truthy (strip (str_of_cell completed_labs_str)) then
      let completed_labs := split_labs (str_of_cell completed_labs_str) in
      st <- get_state ;;
      let (update_data, mismatched) :=
        stage_labels column_map completed_labs (mismatched_labs_log st) in
      set_mismatched mismatched ;;
      if truthy update_data then apply_update update_data email user_name
      else ret tt
    else ret tt
  else ret tt.

Definition missing_columns_error : str :=
  "File missing required columns: 'User Name', 'User Email', and 'Names of Completed Skill Badges'.".

Definition schema_error : str :=
  "Could not fetch schema. Table '" ++ TABLE_NAME ++ "' might be empty.".

Definition report (st : state) : http_response :=
  Success
    ("Processing complete. Attempted to apply "
       ++ str_of_nat (total_updates st) ++ " lab completion updates.")
    {| updates := update_log st;
       users_not_found := not_found_log st;
       mismatched_lab_names := sorted (mismatched_labs_log st) |}.

(** Lines 64 to 143, the body of the outer [try]. *)
Definition process_file (file : upload) : M http_response :=
  response <- execute_select ;;
  match data response with
  | [] => ret (Failure 500 schema_error)
  | first :: _ =>
      let original_columns := keys first in
      let column_map := build_column_map original_columns in
      df <- lift (read_table file) ;;
      if negb (forallb (fun col => mem col (columns df)) required_columns)
      then ret (Failure 400 missing_columns_error)
      else
        init_locals ;;
        for_each (iterrows df) (process_row column_map) ;;
        st <- get_state ;;
        ret (report st)
  end.

(** [upload_file]: [supabase] tells whether the client was initialised,
    [file] is the part named [file] of the request, if there is one.  A file
    object is true exactly when its name is not empty, so the test of line
    60 holds once line 57 is passed, and line 148 is never reached. *)
Definition upload_file (supabase : bool) (file : option upload)
  : state -> http_response * state := fun st =>
  if negb supabase then
    (Failure 500 "Supabase client is not initialized. Check server logs.", st)
  else
    match file with
    | None => (Failure 400 "No file part in the request", st)
    | Some f =>
        if negb (truthy (filename f)) then (Failure 400 "No file selected", st)
        else
          match process_file f st with
          | (Returned r, st') => (r, st')
          | (Raised e, st') =>
              (Failure 500
                 ("An error occurred while processing the file: " ++ e), st')
          end
    end.

End Engine.

Arguments state S : clear implicits.

(** ** Two stores to run the program on *)

(** A store that answers from a script: each request takes the next
    outcome. *)
Definition script := list (outcome api_response).

Definition next_outcome (s : script) : outcome api_response * script :=
  match s with
  | [] => (Raised ("no answer" : str), [])
  | o :: rest => (o, rest)
  end.

#[export] Instance scripted_store : Store script := {|
  select_sample := next_outcome;
  update_eq := fun _ _ => next_outcome
|}.

(** A store that holds the table: an update sets the fields of the records
    whose [email] equals the one asked for, and returns these records and
    their number. *)
Definition table := list (dict str).

Definition has_email (email : str) (record : dict str) : bool :=
  match dict_get "email" record with
  | Some e => str_eqb e email
  | None => false
  end.

Definition set_fields (update_data record : dict str) : dict str :=
  fold_left (fun r kv => dict_set (fst kv) (snd kv) r) update_data record.

Definition table_update (update_data : dict str) (email : str) (t : table)
  : outcome api_response * table :=
  let t' :=
    map (fun r => if has_email email r then set_fields update_data r else r) t
  in
  let hit := filter (has_email email) t' in
  (Returned {| data := hit; count := Some (List.length hit) |}, t').

Definition table_select (t : table) : outcome api_response * table :=
  (Returned {| data := firstn 1 t; count := None |}, t).

#[export] Instance table_store : Store table := {|
  select_sample := table_select;
  update_eq := table_update
|}.

(** ** A sample table and upload *)

Definition item (k v : str) : str * str := (k, v).

Definition participants : table :=
  [[item "name" "Ann"; item "email" "a@x.com"; item "Foo" ""; item "Bar" ""]].

Definition sample_map : dict str :=
  build_column_map ["name" : str; "email" : str; "Foo" : str; "Bar" : str].

(** A sheet with the three required columns and the given rows. *)
Definition sheet (rows : list (list cell)) : upload :=
  {| filename := "badges.csv";
     read_table := Returned {| columns := required_columns; cells := rows |} |}.

Definition sheet_row (user_name email labs : cell) : series :=
  combine required_columns [user_name; email; labs].

(** A sheet without the column of the badge names. *)
Definition two_column_frame : dataframe :=
  {| columns := ["User Name" : str; "User Email" : str];
     cells := [[Val "Ann"; Val "a@x.com"]] |}.

Definition two_column_sheet : upload :=
  {| filename := "badges.csv"; read_table := Returned two_column_frame |}.

(** A script: the first request fails, the second one succeeds. *)
Definition failing_script : script :=
  [Raised ("connection reset" : str);
   Returned {| data := participants; count := Some 1 |}].

Definition succeeding_script : script :=
  [Returned {| data := participants; count := Some 1 |}].

(** A script: the schema probe is answered with one record, the update
    request with no record and no count. *)
Definition no_match_script : script :=
  [Returned {| data := participants; count := None |};
   Returned {| data := []; count := None |}].

Definition bob_sheet : upload :=
  sheet [[Val "Bob"; Val "bob@x.com"; Val "Foo"]].

(** A sheet with labels no column stands for, one of them in two rows and
    with blanks around it in both. *)
Definition stray_sheet : upload :=
  sheet [[Val "Ann"; Val "a@x.com"; Val "Foo |  Quux "];
         [Val "Bea"; Val "b@x.com"; Val " Quux |Baz"]].

Definition stray_frame : dataframe :=
  {| columns := required_columns;
     cells := [[Val "Ann"; Val "a@x.com"; Val "Foo |  Quux "];
               [Val "Bea"; Val "b@x.com"; Val " Quux |Baz"]] |}.

(** A sheet with two unmatched labels, one the beginning of the other, and
    one with two that differ in the case of the first letter. *)
Definition prefix_sheet : upload :=
  sheet [[Val "Ann"; Val "a@x.com"; Val "a|a b"]].

Definition case_sheet : upload :=
  sheet [[Val "Ann"; Val "a@x.com"; Val "apple|Zed"]].

(** ** Tactics *)

Ltac by_cases_on c :=
  destruct c as [[] [] [] [] [] [] [] []]; vm_compute; try reflexivity;
  try discriminate; auto.

(** ** Words *)

(** The maximal runs of characters of [[a-z0-9]] in a text, in order. *)
Fixpoint words (s : str) : list str :=
  match s with
  | [] => []
  | c :: t =>
      if is_alnum c then
        if head_is is_alnum t then
          match words t with
          | w :: ws => (c :: w) :: ws
          | [] => [[c]]
          end
        else [c] :: words t
      else words t
  end.

(** Lines 34 to 36 of [normalize_name]: the text before the runs of other
    characters are replaced. *)
Definition folded (name : str) : str :=
  replace "gen ai" "genai" (strip (replace "[skill badge]" "" (lower name))).

(** ** Views of a request *)

(** Nothing of the run has happened between two states: no line logged, no
    label recorded, no update request sent.  The store itself may have
    answered the schema probe. *)
Definition untouched {S : Type} (st st' : state S) : Prop :=
  update_log st' = update_log st
  /\ total_updates st' = total_updates st
  /\ not_found_log st' = not_found_log st
  /\ mismatched_labs_log st' = mismatched_labs_log st
  /\ calls st' = calls st.

(** The message of the handler of line 145. *)
Definition processing_error (e : exn) : str :=
  "An error occurred while processing the file: " ++ e.

Definition not_initialized_error : str :=
  "Supabase client is not initialized. Check server logs.".

(** The number of fields in the payloads of a sequence of requests. *)
Definition payload_sizes (requests : list (dict str * str)) : nat :=
  list_sum (map (fun r => List.length (fst r)) requests).

(** ** The client *)

(** Lines 13 to 29: the client is made when both environment variables are
    set and not empty and [create_client] returns; otherwise [supabase]
    stays [None]. *)
Definition init_client {S : Type} (create_client : str -> str -> outcome S)
    (SUPABASE_URL SUPABASE_KEY : option str) : option S :=
  match SUPABASE_URL, SUPABASE_KEY with
  | Some url, Some key =>
      if truthy url && truthy key then
        match create_client url key with
        | Returned client => Some client
        | Raised _ => None
        end
      else None
  | _, _ => None
  end.

(** [not supabase] of line 50, negated. *)
Definition client_ready {S : Type} (supabase : option S) : bool :=
  match supabase with Some _ => true | None => false end.

(** ** More samples *)

(** The table as a store that reports no count, as a request that does not
    ask for one is answered. *)
Definition table_update_uncounted (update_data : dict str) (email : str)
    (t : table) : outcome api_response * table :=
  let (r, t') := table_update update_data email t in
  match r with
  | Returned resp => (Returned {| data := data resp; count := None |}, t')
  | Raised e => (Raised e, t')
  end.

Definition uncounted_table : Store table := {|
  select_sample := table_select;
  update_eq := table_update_uncounted
|}.

Definition ann_sheet : upload :=
  sheet [[Val "Ann"; Val "a@x.com"; Val "Foo | Bar | Quux"];
         [NA; Val "a@x.com"; Val "foo"]].

Definition ann_frame : dataframe :=
  {| columns := required_columns;
     cells := [[Val "Ann"; Val "a@x.com"; Val "Foo | Bar | Quux"];
               [NA; Val "a@x.com"; Val "foo"]] |}.

Definition ann_record : dict str :=
  [item "name" "Ann"; item "email" "a@x.com"; item "Foo" ""; item "Bar" ""].

(** A sheet whose decoding fails. *)
Definition broken_sheet : upload :=
  {| filename := "badges.csv";
     read_table := Raised ("No columns to parse from file" : str) |}.

(** A line that does not report a success: the no-new-updates line or a
    FAILED line. *)
Definition unsuccessful_line (line : str) : Prop :=
  (exists user_name, line = no_updates_line user_name)
  \/ (exists user_name e, line = failed_line user_name e).

(** The reports of the sheet of Ann, from the table that counts and from
    the one that does not. *)
Definition ann_details : final_log :=
  {| updates := [("Updated 2 labs for 'Ann': Foo, Bar." : str);
                 ("Updated 1 labs for 'a@x.com': Foo." : str)];
     users_not_found := [];
     mismatched_lab_names :=
       [("'Quux' from file did not match any database column." : str)] |}.

Definition ann_uncounted_details : final_log :=
  {| updates :=
       [("No new updates for 'Ann' (data may already be current)." : str);
        ("No new updates for 'a@x.com' (data may already be current)." : str)];
     users_not_found := [];
     mismatched_lab_names :=
       [("'Quux' from file did not match any database column." : str)] |}.

(** The store after a sequence of update requests, sent in order. *)
Definition after_requests {S : Type} {store_api : Store S}
    (requests : list (dict str * str)) (s : S) : S :=
  fold_left (fun s r => snd (update_eq (fst r) (snd r) s)) requests s.

(** The name a row is logged under. *)
Definition logged_name (row : series) : str :=
  match series_get "User Name" row with
  | NA => strip (str_of_cell (series_get "User Email" row))
  | Val name => strip name
  end.

(** * Properties *)

(** ** The text functions on samples *)

Example normalize_name_samples :
  normalize_name "[Skill Badge] Intro to Gen AI: Foo--Bar!"
  = "intro_to_genai_foo_bar"
  /\ normalize_name "  Level 3: Gen AI  " = "level_3_genai"
  /\ normalize_name "[SKILL BADGE]" = ""
  /\ normalize_name "" = "".
Proof. repeat split. Qed.

Example replace_samples :
  replace "aa" "b" "aaaaa" = "bba"
  /\ replace "[skill badge]" "" "[skill [skill badge]badge]" = "[skill badge]".
Proof. split; reflexivity. Qed.

Example split_labs_sample :
  split_labs "Foo | [Skill Badge] Bar||"
  = ["Foo" : str; "[Skill Badge] Bar" : str; "" : str; "" : str].
Proof. reflexivity. Qed.

Example sorted_sample :
  sorted ["b" : str; "a b" : str; "B" : str; "a" : str]
  = ["B" : str; "a" : str; "a b" : str; "b" : str].
Proof. reflexivity. Qed.

(** ** Characters *)

Lemma lower_char_idem (c : ascii) : lower_char (lower_char c) = lower_char c.
Proof. by_cases_on c. Qed.

Lemma key_char_lower (c : ascii) : is_key_char c = true -> lower_char c = c.
Proof. by_cases_on c. Qed.

Lemma key_char_not_space (c : ascii) :
  is_key_char c = true -> is_space c = false.
Proof. by_cases_on c. Qed.

Lemma underscore_not_alnum (c : ascii) :
  is_underscore c = true -> is_alnum c = false.
Proof. by_cases_on c. Qed.

Lemma underscore_eq (c : ascii) : is_underscore c = true -> c = "_"%char.
Proof. by_cases_on c. Qed.

Lemma alnum_key_char (c : ascii) : is_alnum c = true -> is_key_char c = true.
Proof. unfold is_key_char. intros ->. reflexivity. Qed.

Lemma str_eqb_eq (a b : str) : str_eqb a b = true <-> a = b.
Proof.
  unfold str_eqb. destruct (list_eq_dec ascii_dec a b); split; intros;
    try reflexivity; try assumption; try discriminate; contradiction.
Qed.

Lemma str_eqb_refl (a : str) : str_eqb a a = true.
Proof. apply str_eqb_eq. reflexivity. Qed.

Lemma str_eqb_neq (a b : str) : str_eqb a b = false <-> a <> b.
Proof.
  unfold str_eqb. destruct (list_eq_dec ascii_dec a b); split; intros;
    try reflexivity; try assumption; try discriminate; contradiction.
Qed.

(** ** Stripping *)

Section Strip.

Variable p : ascii -> bool.

Lemma lstrip_split (s : str) :
  exists u, s = u ++ lstrip_of p s /\ forallb p u = true.
Proof.
  induction s as [|c t IH]; simpl.
  - exists []. split; reflexivity.
  - destruct (p c) eqn:Hc.
    + destruct IH as [u [Hu Hp]]. exists (c :: u). simpl. rewrite Hc, Hp.
      split; [f_equal; exact Hu | reflexivity].
    + exists []. split; reflexivity.
Qed.

Lemma rstrip_split (s : str) :
  exists v, s = rstrip_of p s ++ v /\ forallb p v = true.
Proof.
  induction s as [|c t IH]; simpl.
  - exists []. split; reflexivity.
  - destruct IH as [v [Hv Hp]]. destruct (rstrip_of p t) as [|x r] eqn:Hr.
    + destruct (p c) eqn:Hc.
      * exists (c :: v). simpl in *. rewrite Hc, Hp. subst t.
        split; reflexivity.
      * exists v. simpl in *. subst t. split; [reflexivity | exact Hp].
    + exists v. split; [simpl; f_equal; exact Hv | exact Hp].
Qed.

Lemma strip_split (s : str) :
  exists u v, s = u ++ strip_of p s ++ v
              /\ forallb p u = true /\ forallb p v = true.
Proof.
  unfold strip_of. destruct (lstrip_split s) as [u [Hu Hpu]].
  destruct (rstrip_split (lstrip_of p s)) as [v [Hv Hpv]].
  exists u, v. split; [|split; assumption].
  rewrite <- Hv. exact Hu.
Qed.

Lemma lstrip_head (s : str) : head_is p (lstrip_of p s) = false.
Proof.
  induction s as [|c t IH]; simpl; [reflexivity|].
  destruct (p c) eqn:Hc; [exact IH | simpl; exact Hc].
Qed.

Lemma lstrip_fixed (s : str) : head_is p s = false -> lstrip_of p s = s.
Proof. destruct s as [|c t]; simpl; [reflexivity | intros ->; reflexivity]. Qed.

Lemma head_is_app (a b : str) :
  a <> [] -> head_is p (a ++ b) = head_is p a.
Proof. destruct a; [contradiction | reflexivity]. Qed.

Lemma rev_not_nil (c : ascii) (t : str) : rev (c :: t) <> [].
Proof.
  simpl. intros H. apply (f_equal (@List.length ascii)) in H.
  rewrite length_app in H. simpl in H. lia.
Qed.

Lemma rstrip_last (s : str) : head_is p (rev (rstrip_of p s)) = false.
Proof.
  induction s as [|c t IH]; simpl; [reflexivity|].
  destruct (rstrip_of p t) as [|x r] eqn:Hr.
  - destruct (p c) eqn:Hc; simpl; [reflexivity | exact Hc].
  - change (rev (c :: x :: r)) with (rev (x :: r) ++ [c]).
    rewrite head_is_app by apply rev_not_nil. exact IH.
Qed.

Lemma rstrip_fixed (s : str) :
  head_is p (rev s) = false -> rstrip_of p s = s.
Proof.
  induction s as [|c t IH]; simpl; [reflexivity|].
  intros H. destruct t as [|x t'].
  - simpl in *. rewrite H. reflexivity.
  - rewrite head_is_app in H by apply rev_not_nil.
    rewrite (IH H). reflexivity.
Qed.

Lemma rstrip_head (s : str) :
  head_is p s = false -> head_is p (rstrip_of p s) = false.
Proof.
  destruct s as [|c t]; simpl; [reflexivity|]. intros Hc.
  destruct (rstrip_of p t); [rewrite Hc|]; simpl; exact Hc.
Qed.

Lemma strip_head (s : str) : head_is p (strip_of p s) = false.
Proof. unfold strip_of. apply rstrip_head, lstrip_head. Qed.

Lemma strip_last (s : str) : head_is p (rev (strip_of p s)) = false.
Proof. unfold strip_of. apply rstrip_last. Qed.

Lemma strip_fixed (s : str) :
  head_is p s = false -> head_is p (rev s) = false -> strip_of p s = s.
Proof.
  intros H1 H2. unfold strip_of. rewrite (lstrip_fixed _ H1).
  apply rstrip_fixed, H2.
Qed.

Lemma strip_idem (s : str) : strip_of p (strip_of p s) = strip_of p s.
Proof. apply strip_fixed; [apply strip_head | apply strip_last]. Qed.

End Strip.

Lemma head_is_forallb (p q : ascii -> bool) (s : str) :
  (forall c, q c = true -> p c = false) ->
  forallb q s = true -> head_is p s = false.
Proof.
  intros Hpq. destruct s as [|c t]; simpl; [reflexivity|].
  intros H. apply andb_true_iff in H. apply Hpq, H.
Qed.

Lemma forallb_rev (q : ascii -> bool) (s : str) :
  forallb q s = true -> forallb q (rev s) = true.
Proof.
  rewrite !forallb_forall. intros H c Hc. apply H, in_rev, Hc.
Qed.

Lemma strip_forallb (p q : ascii -> bool) (s : str) :
  forallb q s = true -> forallb q (strip_of p s) = true.
Proof.
  destruct (strip_split p s) as [u [v [Hs _]]]. intros H.
  rewrite Hs in H. rewrite !forallb_app in H.
  apply andb_true_iff in H. destruct H as [_ H].
  apply andb_true_iff in H. apply H.
Qed.

(** ** Replacing *)

Lemma starts_with_prefix (p s : str) :
  starts_with p s = true -> exists t, s = p ++ t.
Proof.
  revert s. induction p as [|a p IH]; intros s H.
  - exists s. reflexivity.
  - destruct s as [|b s]; simpl in H; [discriminate|].
    destruct (ascii_dec a b) as [->|]; [|discriminate].
    destruct (IH s H) as [t ->]. exists t. reflexivity.
Qed.

Lemma starts_with_app (p t : str) : starts_with p (p ++ t) = true.
Proof.
  induction p as [|a p IH]; simpl; [reflexivity|].
  destruct (ascii_dec a a); [exact IH | contradiction].
Qed.

Lemma replace_absent (old new s : str) (c : ascii) :
  In c old -> ~ In c s -> replace old new s = s.
Proof.
  intros Hold. unfold replace. induction s as [|b t IH]; intros Hs.
  - reflexivity.
  - simpl. destruct (starts_with old (b :: t)) eqn:Hp.
    + exfalso. apply Hs. destruct (starts_with_prefix _ _ Hp) as [u ->].
      apply in_or_app. left. exact Hold.
    + f_equal. apply IH. intros Hin. apply Hs. right. exact Hin.
Qed.

Lemma replace_from_skip (old new u t : str) :
  replace_from old new (List.length u) (u ++ t) = replace_from old new 0 t.
Proof. induction u as [|c u IH]; simpl; [reflexivity | exact IH]. Qed.

Lemma replace_prefix (old new t : str) :
  old <> [] -> replace old new (old ++ t) = new ++ replace old new t.
Proof.
  intros Hne. unfold replace. destruct old as [|a o]; [contradiction|].
  change ((a :: o) ++ t) with (a :: (o ++ t)).
  cbn [replace_from].
  change (a :: o ++ t) with ((a :: o) ++ t).
  rewrite starts_with_app. f_equal.
  replace (List.length (a :: o) - 1) with (List.length o) by (simpl; lia).
  apply replace_from_skip.
Qed.

Lemma replace_miss (old new : str) (c : ascii) (t : str) :
  starts_with old (c :: t) = false ->
  replace old new (c :: t) = c :: replace old new t.
Proof. unfold replace. cbn [replace_from]. intros ->. reflexivity. Qed.

(** ** Runs of separators *)

Lemma single_seps_weaken (b : bool) (s : str) :
  single_seps b s = true -> single_seps false s = true.
Proof.
  destruct s as [|c t]; simpl; [reflexivity|].
  destruct (is_alnum c); [trivial|]. destruct b; simpl.
  - rewrite andb_false_r. discriminate.
  - trivial.
Qed.

Lemma single_seps_suffix (b : bool) (u v : str) :
  single_seps b (u ++ v) = true -> single_seps false v = true.
Proof.
  revert b. induction u as [|c u IH]; intros b; simpl.
  - apply single_seps_weaken.
  - destruct (is_alnum c); [apply IH|]. intros H.
    apply andb_true_iff in H. destruct H as [_ H]. exact (IH _ H).
Qed.

Lemma single_seps_prefix (b : bool) (u v : str) :
  single_seps b (u ++ v) = true -> single_seps b u = true.
Proof.
  revert b. induction u as [|c u IH]; intros b; simpl; [reflexivity|].
  destruct (is_alnum c); [apply IH|]. intros H.
  apply andb_true_iff in H. destruct H as [H1 H]. rewrite H1.
  exact (IH _ H).
Qed.

Lemma sub_runs_single_seps (b : bool) (s : str) :
  single_seps b (sub_runs "_" b s) = true.
Proof.
  revert b. induction s as [|c t IH]; intros b; simpl; [reflexivity|].
  destruct (is_alnum c) eqn:Hc.
  - simpl. rewrite Hc. apply IH.
  - destruct b; [apply IH|]. simpl. apply IH.
Qed.

Lemma single_seps_fixed (b : bool) (s : str) :
  single_seps b s = true -> sub_runs "_" b s = s.
Proof.
  revert b. induction s as [|c t IH]; intros b; simpl; [reflexivity|].
  destruct (is_alnum c).
  - intros H. f_equal. apply IH, H.
  - intros H. apply andb_true_iff in H. destruct H as [H Ht].
    apply andb_true_iff in H. destruct H as [Hu Hb].
    destruct b; [discriminate|]. simpl.
    rewrite (underscore_eq _ Hu) in *. f_equal. apply IH, Ht.
Qed.

Lemma sub_runs_key_chars (b : bool) (s : str) :
  forallb is_key_char (sub_runs "_" b s) = true.
Proof.
  revert b. induction s as [|c t IH]; intros b; simpl; [reflexivity|].
  destruct (is_alnum c) eqn:Hc.
  - simpl. rewrite (alnum_key_char _ Hc). apply IH.
  - destruct b; [apply IH|]. simpl. apply IH.
Qed.

Lemma strip_single_seps (p : ascii -> bool) (s : str) :
  single_seps false s = true -> single_seps false (strip_of p s) = true.
Proof.
  destruct (strip_split p s) as [u [v [Hs _]]]. intros H.
  rewrite Hs in H. apply single_seps_suffix in H.
  apply single_seps_prefix in H. exact H.
Qed.

(** ** Normalized keys *)

Lemma lower_idem (s : str) : lower (lower s) = lower s.
Proof.
  unfold lower. rewrite map_map. apply map_ext. apply lower_char_idem.
Qed.

Lemma lower_key_chars (s : str) : forallb is_key_char s = true -> lower s = s.
Proof.
  induction s as [|c t IH]; simpl; [reflexivity|]. intros H.
  apply andb_true_iff in H. destruct H as [Hc Ht].
  rewrite (key_char_lower _ Hc), (IH Ht). reflexivity.
Qed.

Lemma key_chars_exclude (s : str) (c : ascii) :
  forallb is_key_char s = true -> is_key_char c = false -> ~ In c s.
Proof.
  intros H Hc Hin. rewrite forallb_forall in H. rewrite (H _ Hin) in Hc.
  discriminate.
Qed.

Lemma normalize_name_key (x : str) : normalized_key (normalize_name x).
Proof.
  unfold normalize_name, normalized_key, re_sub_non_alnum.
  repeat split.
  - apply strip_forallb, sub_runs_key_chars.
  - apply strip_single_seps, sub_runs_single_seps.
  - apply strip_head.
  - apply strip_last.
Qed.

Lemma normalized_key_fixed (k : str) :
  normalized_key k -> normalize_name k = k.
Proof.
  intros [Hk [Hs [Hh Hl]]]. unfold normalize_name.
  rewrite (lower_key_chars _ Hk).
  rewrite (@replace_absent "[skill badge]" "" k "["%char);
    [| simpl; auto | apply key_chars_exclude; [exact Hk | reflexivity]].
  unfold strip. rewrite (@strip_fixed is_space k).
  - rewrite (@replace_absent "gen ai" "genai" k " "%char);
      [| simpl; auto 10 | apply key_chars_exclude; [exact Hk | reflexivity]].
    unfold re_sub_non_alnum. rewrite (single_seps_fixed _ _ Hs).
    apply strip_fixed; assumption.
  - apply (head_is_forallb is_space is_key_char); [|exact Hk].
    apply key_char_not_space.
  - apply (head_is_forallb is_space is_key_char);
      [apply key_char_not_space | apply forallb_rev, Hk].
Qed.

Lemma normalize_name_lower (x : str) :
  normalize_name (lower x) = normalize_name x.
Proof. unfold normalize_name. rewrite lower_idem. reflexivity. Qed.

Lemma strip_leading_space (s : str) : strip (" "%char :: s) = strip s.
Proof. reflexivity. Qed.

(** C4. Normalization is idempotent: normalizing the result of a
    normalization gives that result again, for every text; the result always
    has the shape of a normalized key (characters of a-z, 0-9 and the
    underscore, no underscore at either end, no two in a row). *)
Theorem normalize_name_idempotent (x : str) :
  normalize_name (normalize_name x) = normalize_name x
  /\ normalized_key (normalize_name x).
Proof.
  split.
  - apply normalized_key_fixed, normalize_name_key.
  - apply normalize_name_key.
Qed.

(** C9. Normalization does not see letter case nor the tag
    [[Skill Badge]], however the tag is cased: a text with the tag and a
    space in front normalizes as the lowercased text does, which normalizes
    as the text itself. *)
Theorem normalize_name_tag_case (tag foo : str) :
  lower tag = "[skill badge]" ->
  normalize_name (tag ++ " " ++ foo) = normalize_name (lower foo)
  /\ normalize_name (lower foo) = normalize_name foo.
Proof.
  intros Htag. split; [|apply normalize_name_lower].
  unfold normalize_name. rewrite lower_idem.
  unfold lower at 1. rewrite map_app. fold (lower tag). rewrite Htag.
  rewrite replace_prefix by discriminate.
  change (map lower_char (" " ++ foo)) with (" "%char :: lower foo).
  rewrite replace_miss by reflexivity.
  change (list_ascii_of_string "" ++ ?x) with x.
  cbn [list_ascii_of_string app].
  rewrite strip_leading_space. reflexivity.
Qed.

Lemma normalize_name_tag_case_witness :
  lower "[Skill Badge]" = "[skill badge]"
  /\ normalize_name "[Skill Badge] Foo" = normalize_name "foo".
Proof.
  split; [reflexivity|].
  exact (proj1 (normalize_name_tag_case "[Skill Badge]" "Foo" eq_refl)).
Defined.

(** ** Dictionaries and sets *)

Lemma mem_In (x : str) (l : list str) : mem x l = true <-> In x l.
Proof.
  unfold mem. rewrite existsb_exists. split.
  - intros [y [Hy He]]. apply str_eqb_eq in He. subst y. exact Hy.
  - intros H. exists x. split; [exact H | apply str_eqb_refl].
Qed.

Lemma mem_not_In (x : str) (l : list str) : mem x l = false <-> ~ In x l.
Proof.
  rewrite <- mem_In. destruct (mem x l); split; intros H;
    try congruence; try reflexivity.
Qed.

Lemma set_add_In (x y : str) (s : list str) :
  In y (set_add x s) <-> y = x \/ In y s.
Proof.
  unfold set_add. destruct (mem x s) eqn:Hm.
  - apply mem_In in Hm. split; [auto|]. intros [->|H]; assumption.
  - rewrite in_app_iff. simpl. split.
    + intros [H|[H|[]]]; auto.
    + intros [H|H]; auto.
Qed.

Lemma set_add_NoDup (x : str) (s : list str) :
  NoDup s -> NoDup (set_add x s).
Proof.
  unfold set_add. destruct (mem x s) eqn:Hm; [trivial|]. intros H.
  apply mem_not_In in Hm. apply NoDup_rev in H.
  rewrite <- (rev_involutive (s ++ [x])). apply NoDup_rev.
  rewrite rev_app_distr. simpl. constructor; [|exact H].
  rewrite <- in_rev. exact Hm.
Qed.

Section DictFacts.

Variable V : Type.
Implicit Types (d : dict V) (k : str) (v : V).

Lemma dict_get_set_same k v d : dict_get k (dict_set k v d) = Some v.
Proof.
  induction d as [|[k' v'] t IH]; simpl.
  - rewrite str_eqb_refl. reflexivity.
  - destruct (str_eqb k k') eqn:He; simpl; rewrite He; [reflexivity | exact IH].
Qed.

Lemma dict_get_set_other k k' v d :
  k <> k' -> dict_get k' (dict_set k v d) = dict_get k' d.
Proof.
  intros Hne. induction d as [|[k0 v0] t IH]; simpl.
  - apply not_eq_sym in Hne. apply str_eqb_neq in Hne. rewrite Hne.
    reflexivity.
  - destruct (str_eqb k k0) eqn:He; simpl.
    + apply str_eqb_eq in He. subst k0.
      apply not_eq_sym in Hne. apply str_eqb_neq in Hne. rewrite Hne.
      reflexivity.
    + rewrite IH. reflexivity.
Qed.

Lemma dict_set_keys k v d :
  keys (dict_set k v d) = set_add k (keys d).
Proof.
  unfold set_add, keys, mem. induction d as [|[k' v'] t IH]; simpl.
  - reflexivity.
  - destruct (str_eqb k k') eqn:He; simpl; [reflexivity|].
    rewrite IH. destruct (existsb (str_eqb k) (map fst t)); reflexivity.
Qed.

Lemma dict_set_In k v d k' v' :
  In (k', v') (dict_set k v d) -> (k' = k /\ v' = v) \/ In (k', v') d.
Proof.
  induction d as [|[k0 v0] t IH]; simpl.
  - intros [H|[]]. injection H as <- <-. auto.
  - destruct (str_eqb k k0) eqn:He; simpl.
    + apply str_eqb_eq in He. subst k0.
      intros [H|H]; [injection H as <- <-; auto | auto].
    + intros [H|H]; [auto|]. destruct (IH H) as [H'|H']; auto.
Qed.

Lemma dict_get_In k v d : dict_get k d = Some v -> In (k, v) d.
Proof.
  induction d as [|[k0 v0] t IH]; simpl; [discriminate|].
  destruct (str_eqb k k0) eqn:He.
  - apply str_eqb_eq in He. subst k0. intros H. injection H as ->. auto.
  - auto.
Qed.

Lemma dict_In_keys k v d : In (k, v) d -> In k (keys d).
Proof. intros H. apply (in_map fst) in H. exact H. Qed.

End DictFacts.

(** ** Sorting *)

Lemma str_leb_total (a b : str) : str_leb a b = false -> str_leb b a = true.
Proof.
  revert b. induction a as [|x a IH]; intros [|y b]; simpl; try discriminate;
    try reflexivity.
  destruct (code x <? code y) eqn:H1; [discriminate|].
  destruct (code y <? code x) eqn:H2; [reflexivity|]. apply IH.
Qed.

Lemma str_leb_trans (a b c : str) :
  str_leb a b = true -> str_leb b c = true -> str_leb a c = true.
Proof.
  revert b c. induction a as [|x a IH]; intros [|y b] [|z c]; simpl;
    try discriminate; try reflexivity.
  destruct (code x <? code y) eqn:H1; destruct (code y <? code x) eqn:H2;
    destruct (code y <? code z) eqn:H3; destruct (code z <? code y) eqn:H4;
    destruct (code x <? code z) eqn:H5; destruct (code z <? code x) eqn:H6;
    try discriminate; try reflexivity;
    rewrite ?Nat.ltb_lt, ?Nat.ltb_ge in *; try lia.
  apply IH.
Qed.

Lemma insert_sorted_perm (x : str) (l : list str) :
  Permutation (x :: l) (insert_sorted x l).
Proof.
  induction l as [|y t IH]; simpl; [reflexivity|].
  destruct (str_leb x y); [reflexivity|].
  rewrite perm_swap. constructor. exact IH.
Qed.

Lemma sorted_perm (l : list str) : Permutation l (sorted l).
Proof.
  induction l as [|x t IH]; simpl; [constructor|].
  rewrite <- insert_sorted_perm. constructor. exact IH.
Qed.

Lemma insert_sorted_Sorted (x : str) (l : list str) :
  Sorted str_le l -> Sorted str_le (insert_sorted x l).
Proof.
  induction l as [|y t IH]; simpl; intros Hs.
  - repeat constructor.
  - destruct (str_leb x y) eqn:Hxy.
    + constructor; [exact Hs | constructor; exact Hxy].
    + inversion Hs as [|? ? Ht Hd]; subst. constructor; [apply IH, Ht|].
      destruct t as [|z t']; simpl.
      * constructor. apply str_leb_total, Hxy.
      * destruct (str_leb x z); constructor.
        -- apply str_leb_total, Hxy.
        -- inversion Hd; assumption.
Qed.

Lemma sorted_Sorted (l : list str) : Sorted str_le (sorted l).
Proof.
  induction l as [|x t IH]; simpl; [constructor|].
  apply insert_sorted_Sorted, IH.
Qed.

Lemma sorted_StronglySorted (l : list str) : StronglySorted str_le (sorted l).
Proof.
  apply Sorted_StronglySorted; [|apply sorted_Sorted].
  intros a b c. apply str_leb_trans.
Qed.

Lemma sorted_In (x : str) (l : list str) : In x (sorted l) <-> In x l.
Proof.
  split; apply Permutation_in; [symmetry|]; apply sorted_perm.
Qed.

Lemma sorted_NoDup (l : list str) : NoDup l -> NoDup (sorted l).
Proof. apply Permutation_NoDup, sorted_perm. Qed.

(** ** Staging the labels of a row *)

Section Staging.

Variable column_map : dict str.

Lemma stage_label_cases (ud : dict str) (mm : list str) (lab : str) :
  stage_label column_map (ud, mm) lab =
  match stage_field column_map lab with
  | Some col => (dict_set col ("Yes" : str) ud, mm)
  | None => (ud, if truthy lab then set_add (mismatch_line lab) mm else mm)
  end.
Proof.
  unfold stage_label, stage_field. destruct (truthy lab); simpl; [|reflexivity].
  destruct (dict_get (normalize_name lab) column_map) as [col|];
    [destruct (truthy col)|]; reflexivity.
Qed.

Lemma stage_field_absent (lab : str) :
  dict_get (normalize_name lab) column_map = None ->
  stage_field column_map lab = None.
Proof.
  unfold stage_field. intros ->. destruct (truthy lab); reflexivity.
Qed.

Lemma stage_field_present (lab col : str) :
  lab <> [] -> col <> [] ->
  dict_get (normalize_name lab) column_map = Some col ->
  stage_field column_map lab = Some col.
Proof.
  unfold stage_field. intros Hl Hc ->.
  destruct lab; [contradiction|]. destruct col; [contradiction|]. reflexivity.
Qed.

Lemma stage_field_inv (lab col : str) :
  stage_field column_map lab = Some col ->
  lab <> [] /\ dict_get (normalize_name lab) column_map = Some col.
Proof.
  unfold stage_field. destruct lab as [|c t]; simpl; [discriminate|].
  destruct (dict_get (normalize_name (c :: t)) column_map) as [col'|];
    [|discriminate].
  destruct (truthy col'); [|discriminate]. intros H. injection H as ->.
  split; [discriminate | reflexivity].
Qed.

Lemma stage_payload_indep (labs : list str) (ud : dict str)
    (mm mm' : list str) :
  fst (fold_left (stage_label column_map) labs (ud, mm))
  = fst (fold_left (stage_label column_map) labs (ud, mm')).
Proof.
  revert ud mm mm'. induction labs as [|lab rest IH]; intros; cbn [fold_left];
    [reflexivity|].
  rewrite !stage_label_cases.
  destruct (stage_field column_map lab); apply IH.
Qed.

Lemma stage_keeps_yes (labs : list str) (ud : dict str) (mm : list str)
    (col : str) :
  dict_get col ud = Some ("Yes" : str) ->
  dict_get col (fst (fold_left (stage_label column_map) labs (ud, mm))) = Some ("Yes" : str).
Proof.
  revert ud mm. induction labs as [|lab rest IH]; intros ud mm H; cbn [fold_left];
    [exact H|].
  rewrite stage_label_cases.
  destruct (stage_field column_map lab) as [c|]; apply IH; [|exact H].
  destruct (list_eq_dec ascii_dec c col) as [->|Hne].
  - apply dict_get_set_same.
  - rewrite dict_get_set_other by exact Hne. exact H.
Qed.

Lemma stage_sets_yes (labs : list str) (ud : dict str) (mm : list str)
    (lab col : str) :
  In lab labs -> stage_field column_map lab = Some col ->
  dict_get col (fst (fold_left (stage_label column_map) labs (ud, mm))) = Some ("Yes" : str).
Proof.
  revert ud mm. induction labs as [|l rest IH]; intros ud mm Hin Hf;
    [destruct Hin|].
  cbn [fold_left]. rewrite stage_label_cases. destruct Hin as [->|Hin].
  - rewrite Hf. apply stage_keeps_yes, dict_get_set_same.
  - destruct (stage_field column_map l); apply IH; assumption.
Qed.

Lemma stage_origin (labs : list str) (ud : dict str) (mm : list str)
    (k v : str) :
  In (k, v) (fst (fold_left (stage_label column_map) labs (ud, mm))) ->
  In (k, v) ud
  \/ (v = ("Yes" : str)
      /\ exists lab, In lab labs /\ stage_field column_map lab = Some k).
Proof.
  revert ud mm. induction labs as [|l rest IH]; intros ud mm;
    cbn [fold_left]; [auto|].
  rewrite stage_label_cases. intros H.
  assert (Hrest : forall lab, In lab rest /\ stage_field column_map lab = Some k
                  -> In lab (l :: rest) /\ stage_field column_map lab = Some k)
    by (intros lab [? ?]; split; [right|]; assumption).
  destruct (stage_field column_map l) as [c|] eqn:Hf.
  - destruct (IH _ _ H) as [H1|[Hv [lab Hl]]].
    + destruct (dict_set_In _ _ _ _ _ H1) as [[Hk Hv]|H2]; [|auto].
      right. split; [exact Hv|]. exists l. subst k.
      split; [left; reflexivity | exact Hf].
    + right. split; [exact Hv|]. exists lab. auto.
  - destruct (IH _ _ H) as [H1|[Hv [lab Hl]]]; [auto|].
    right. split; [exact Hv|]. exists lab. auto.
Qed.

Lemma stage_keys (labs : list str) (ud : dict str) (mm : list str) :
  keys (fst (fold_left (stage_label column_map) labs (ud, mm))) =
  fold_left (fun ks c => set_add c ks) (matched_fields column_map labs)
            (keys ud).
Proof.
  revert ud mm. induction labs as [|l rest IH]; intros ud mm;
    cbn [fold_left matched_fields flat_map];
    [reflexivity|].
  rewrite stage_label_cases, fold_left_app.
  destruct (stage_field column_map l) as [c|]; rewrite IH; simpl;
    [rewrite dict_set_keys|]; reflexivity.
Qed.

Lemma fold_set_add_NoDup (xs ks : list str) :
  NoDup ks -> NoDup (fold_left (fun ks c => set_add c ks) xs ks).
Proof.
  revert ks. induction xs as [|x t IH]; intros ks H; simpl; [exact H|].
  apply IH, set_add_NoDup, H.
Qed.

Lemma fold_set_add_In (xs ks : list str) (y : str) :
  In y (fold_left (fun ks c => set_add c ks) xs ks) <-> In y ks \/ In y xs.
Proof.
  revert ks. induction xs as [|x t IH]; intros ks; simpl; [tauto|].
  rewrite IH, set_add_In. intuition congruence.
Qed.

Lemma stage_mismatch_mono (labs : list str) (ud : dict str)
    (mm : list str) (x : str) :
  In x mm -> In x (snd (fold_left (stage_label column_map) labs (ud, mm))).
Proof.
  revert ud mm. induction labs as [|l rest IH]; intros ud mm H; cbn [fold_left];
    [exact H|].
  rewrite stage_label_cases.
  destruct (stage_field column_map l); apply IH; [exact H|].
  destruct (truthy l); [apply set_add_In; auto | exact H].
Qed.

Lemma stage_mismatch_NoDup (labs : list str) (ud : dict str)
    (mm : list str) :
  NoDup mm -> NoDup (snd (fold_left (stage_label column_map) labs (ud, mm))).
Proof.
  revert ud mm. induction labs as [|l rest IH]; intros ud mm H; cbn [fold_left];
    [exact H|].
  rewrite stage_label_cases.
  destruct (stage_field column_map l); apply IH; [exact H|].
  destruct (truthy l); [apply set_add_NoDup, H | exact H].
Qed.

Lemma stage_mismatch_records (labs : list str) (ud : dict str)
    (mm : list str) (lab : str) :
  In lab labs -> lab <> [] -> stage_field column_map lab = None ->
  In (mismatch_line lab) (snd (fold_left (stage_label column_map) labs (ud, mm))).
Proof.
  revert ud mm. induction labs as [|l rest IH]; intros ud mm Hin Hne Hf;
    [destruct Hin|].
  cbn [fold_left]. rewrite stage_label_cases. destruct Hin as [->|Hin].
  - rewrite Hf. apply stage_mismatch_mono.
    destruct lab; [contradiction|]. apply set_add_In. auto.
  - destruct (stage_field column_map l); apply IH; assumption.
Qed.

Lemma row_payload_stage (row : series) (mm : list str) :
  fst (stage_labels column_map (row_labs row) mm) = row_payload column_map row.
Proof. unfold row_payload, stage_labels. apply stage_payload_indep. Qed.

End Staging.

(** ** One row *)

Section EngineFacts.

Context {S : Type} {store_api : Store S}.

Implicit Types (st : state S) (row : series) (column_map ud : dict str).

Lemma process_row_no_email column_map row st :
  notna (series_get "User Email" row) = false ->
  process_row column_map row st = (Returned tt, st).
Proof. unfold process_row. intros ->. reflexivity. Qed.

Lemma process_row_no_labs column_map row st :
  row_has_labs row = false ->
  process_row column_map row st = (Returned tt, st).
Proof.
  unfold process_row, row_has_labs. intros ->.
  destruct (notna (series_get "User Email" row)); reflexivity.
Qed.

Lemma process_row_active column_map row st :
  notna (series_get "User Email" row) = true ->
  row_has_labs row = true ->
  process_row column_map row st =
  let st1 :=
    snd (set_mismatched
           (snd (stage_labels column_map (row_labs row)
                              (mismatched_labs_log st))) st) in
  if truthy (row_payload column_map row)
  then apply_update (row_payload column_map row) (row_email row)
                    (row_user_name row) st1
  else (Returned tt, st1).
Proof.
  unfold process_row, row_has_labs. intros -> ->.
  rewrite <- (row_payload_stage column_map row (mismatched_labs_log st)).
  unfold bind, get_state. fold (row_labs row).
  destruct (stage_labels column_map (row_labs row) (mismatched_labs_log st))
    as [ud mm] eqn:E.
  cbn [fst snd set_mismatched]. destruct (truthy ud); reflexivity.
Qed.

(** What one update request leaves behind, whatever the store answers. *)
Lemma apply_update_frame ud (email user_name : str) st :
  let st' := snd (apply_update ud email user_name st) in
  fst (apply_update ud email user_name st) = Returned tt
  /\ calls st' = calls st ++ [(ud, email)]
  /\ store st' = snd (update_eq ud email (store st))
  /\ mismatched_labs_log st' = mismatched_labs_log st
  /\ not_found_log st' = not_found_log st
  /\ exists line, update_log st' = update_log st ++ [line].
Proof.
  unfold apply_update, try_except, bind, execute_update, first_name.
  destruct (update_eq ud email (store st)) as [[resp|e] s'].
  - destruct (data resp) as [|record more].
    + cbn. repeat split. eexists. reflexivity.
    + destruct (dict_get "name" record) as [v|].
      * destruct (positive (count resp)); cbn; repeat split;
          eexists; reflexivity.
      * cbn. repeat split. eexists. reflexivity.
  - cbn. repeat split. eexists. reflexivity.
Qed.

Lemma apply_update_raised ud (email user_name : str) st (e : exn) (s' : S) :
  update_eq ud email (store st) = (Raised e, s') ->
  let st' := snd (apply_update ud email user_name st) in
  update_log st' = update_log st ++ [failed_line user_name e]
  /\ total_updates st' = total_updates st.
Proof.
  unfold apply_update, try_except, bind, execute_update. intros ->.
  cbn. split; reflexivity.
Qed.

Lemma apply_update_empty_data ud (email user_name : str) st
    (resp : api_response) (s' : S) :
  update_eq ud email (store st) = (Returned resp, s') ->
  data resp = [] ->
  let st' := snd (apply_update ud email user_name st) in
  update_log st' =
    update_log st ++ [failed_line user_name "list index out of range"]
  /\ total_updates st' = total_updates st.
Proof.
  unfold apply_update, try_except, bind, execute_update, first_name.
  intros -> ->. cbn. split; reflexivity.
Qed.

Lemma apply_update_nameless ud (email user_name : str) st
    (resp : api_response) (s' : S) (record : dict str)
    (more : list (dict str)) :
  update_eq ud email (store st) = (Returned resp, s') ->
  data resp = record :: more ->
  dict_get "name" record = None ->
  let st' := snd (apply_update ud email user_name st) in
  update_log st' = update_log st ++ [failed_line user_name "'name'"]
  /\ total_updates st' = total_updates st.
Proof.
  unfold apply_update, try_except, bind, execute_update, first_name.
  intros -> -> ->. cbn. split; reflexivity.
Qed.

(** The two lines the count decides between, reached when the first
    returned record has a [name]. *)
Lemma apply_update_counted ud (email user_name : str) st
    (resp : api_response) (s' : S) (record : dict str)
    (more : list (dict str)) (v : str) :
  update_eq ud email (store st) = (Returned resp, s') ->
  data resp = record :: more ->
  dict_get "name" record = Some v ->
  let st' := snd (apply_update ud email user_name st) in
  if positive (count resp) then
    update_log st' =
      update_log st
        ++ [updated_line (List.length ud) user_name (keys ud)]
    /\ total_updates st' = total_updates st + List.length ud
  else
    update_log st' = update_log st ++ [no_updates_line user_name]
    /\ total_updates st' = total_updates st.
Proof.
  unfold apply_update, try_except, bind, execute_update, first_name.
  intros -> -> ->. destruct (positive (count resp)); cbn; split; reflexivity.
Qed.

Lemma process_row_returns column_map row st :
  fst (process_row column_map row st) = Returned tt.
Proof.
  destruct (notna (series_get "User Email" row)) eqn:He;
    [|rewrite process_row_no_email by exact He; reflexivity].
  destruct (row_has_labs row) eqn:Hl;
    [|rewrite process_row_no_labs by exact Hl; reflexivity].
  rewrite process_row_active by assumption. cbv zeta.
  destruct (truthy (row_payload column_map row)); [|reflexivity].
  apply apply_update_frame.
Qed.

Lemma process_row_calls column_map row st :
  calls (snd (process_row column_map row st)) =
  calls st ++ row_request column_map row.
Proof.
  unfold row_request.
  destruct (notna (series_get "User Email" row)) eqn:He;
    [|rewrite process_row_no_email by exact He; simpl;
      rewrite app_nil_r; reflexivity].
  destruct (row_has_labs row) eqn:Hl;
    [|rewrite process_row_no_labs by exact Hl; simpl;
      rewrite app_nil_r; reflexivity].
  rewrite process_row_active by assumption. cbv zeta.
  destruct (truthy (row_payload column_map row)); simpl.
  - match goal with
    | |- calls (snd (apply_update ?u ?e ?n ?s)) = _ =>
        destruct (apply_update_frame u e n s) as [_ [-> _]]
    end.
    reflexivity.
  - rewrite app_nil_r. reflexivity.
Qed.

Lemma process_row_mismatched column_map row st :
  mismatched_labs_log (snd (process_row column_map row st)) =
  if notna (series_get "User Email" row) && row_has_labs row
  then snd (stage_labels column_map (row_labs row) (mismatched_labs_log st))
  else mismatched_labs_log st.
Proof.
  destruct (notna (series_get "User Email" row)) eqn:He;
    [|rewrite process_row_no_email by exact He; reflexivity].
  destruct (row_has_labs row) eqn:Hl;
    [|rewrite process_row_no_labs by exact Hl; reflexivity].
  rewrite process_row_active by assumption. cbv zeta.
  destruct (truthy (row_payload column_map row)); simpl; [|reflexivity].
  match goal with
  | |- mismatched_labs_log (snd (apply_update ?u ?e ?n ?s)) = _ =>
      destruct (apply_update_frame u e n s) as [_ [_ [_ [-> _]]]]
  end.
  reflexivity.
Qed.

Lemma process_row_not_found column_map row st :
  not_found_log (snd (process_row column_map row st)) = not_found_log st.
Proof.
  destruct (notna (series_get "User Email" row)) eqn:He;
    [|rewrite process_row_no_email by exact He; reflexivity].
  destruct (row_has_labs row) eqn:Hl;
    [|rewrite process_row_no_labs by exact Hl; reflexivity].
  rewrite process_row_active by assumption. cbv zeta.
  destruct (truthy (row_payload column_map row)); simpl; [|reflexivity].
  match goal with
  | |- not_found_log (snd (apply_update ?u ?e ?n ?s)) = _ =>
      destruct (apply_update_frame u e n s) as [_ [_ [_ [_ [-> _]]]]]
  end.
  reflexivity.
Qed.

End EngineFacts.

(** ** The loop over the rows and the whole request *)

Section RunFacts.

Context {S : Type} {store_api : Store S}.

Implicit Types (st : state S) (row : series) (column_map ud : dict str).

Lemma rows_cons column_map row (rest : list series) st :
  for_each (row :: rest) (process_row column_map) st =
  for_each rest (process_row column_map)
           (snd (process_row column_map row st)).
Proof.
  cbn [for_each]. unfold bind.
  pose proof (process_row_returns column_map row st) as H.
  destruct (process_row column_map row st) as [[[]|e] st']; simpl in *;
    [reflexivity | discriminate].
Qed.

Lemma rows_return column_map (rows : list series) st :
  fst (for_each rows (process_row column_map) st) = Returned tt.
Proof.
  revert st. induction rows as [|row rest IH]; intros st; [reflexivity|].
  rewrite rows_cons. apply IH.
Qed.

Lemma rows_app column_map (before after : list series) st :
  for_each (before ++ after) (process_row column_map) st =
  for_each after (process_row column_map)
           (snd (for_each before (process_row column_map) st)).
Proof.
  revert st. induction before as [|row rest IH]; intros st; [reflexivity|].
  rewrite <- app_comm_cons, !rows_cons. apply IH.
Qed.

Lemma rows_calls column_map (rows : list series) st :
  calls (snd (for_each rows (process_row column_map) st)) =
  calls st ++ flat_map (row_request column_map) rows.
Proof.
  revert st. induction rows as [|row rest IH]; intros st.
  - simpl. rewrite app_nil_r. reflexivity.
  - rewrite rows_cons, IH, process_row_calls, <- app_assoc. reflexivity.
Qed.

Lemma rows_not_found column_map (rows : list series) st :
  not_found_log (snd (for_each rows (process_row column_map) st)) =
  not_found_log st.
Proof.
  revert st. induction rows as [|row rest IH]; intros st; [reflexivity|].
  rewrite rows_cons, IH. apply process_row_not_found.
Qed.

Lemma process_row_mismatch_mono column_map row st (x : str) :
  In x (mismatched_labs_log st) ->
  In x (mismatched_labs_log (snd (process_row column_map row st))).
Proof.
  rewrite process_row_mismatched.
  destruct (notna (series_get "User Email" row) && row_has_labs row);
    [apply stage_mismatch_mono | trivial].
Qed.

Lemma process_row_mismatch_NoDup column_map row st :
  NoDup (mismatched_labs_log st) ->
  NoDup (mismatched_labs_log (snd (process_row column_map row st))).
Proof.
  rewrite process_row_mismatched.
  destruct (notna (series_get "User Email" row) && row_has_labs row);
    [apply stage_mismatch_NoDup | trivial].
Qed.

Lemma rows_mismatch_mono column_map (rows : list series) st (x : str) :
  In x (mismatched_labs_log st) ->
  In x (mismatched_labs_log
          (snd (for_each rows (process_row column_map) st))).
Proof.
  revert st. induction rows as [|row rest IH]; intros st H; [exact H|].
  rewrite rows_cons. apply IH, process_row_mismatch_mono, H.
Qed.

Lemma rows_mismatch_NoDup column_map (rows : list series) st :
  NoDup (mismatched_labs_log st) ->
  NoDup (mismatched_labs_log
           (snd (for_each rows (process_row column_map) st))).
Proof.
  revert st. induction rows as [|row rest IH]; intros st H; [exact H|].
  rewrite rows_cons. apply IH, process_row_mismatch_NoDup, H.
Qed.

Lemma rows_mismatch_records column_map (rows : list series) st row
    (lab : str) :
  In row rows ->
  notna (series_get "User Email" row) = true ->
  row_has_labs row = true ->
  In lab (row_labs row) -> lab <> [] ->
  stage_field column_map lab = None ->
  In (mismatch_line lab)
     (mismatched_labs_log
        (snd (for_each rows (process_row column_map) st))).
Proof.
  intros Hin He Hl Hlab Hne Hf. revert st.
  induction rows as [|r rest IH]; intros st; [destruct Hin|].
  rewrite rows_cons. destruct Hin as [->|Hin]; [|apply IH, Hin].
  apply rows_mismatch_mono. rewrite process_row_mismatched, He, Hl.
  apply stage_mismatch_records; assumption.
Qed.

Lemma required_missing (cols : list str) (col : str) :
  In col required_columns -> ~ In col cols ->
  forallb (fun c => mem c cols) required_columns = false.
Proof.
  intros Hin Hno. destruct (forallb _ required_columns) eqn:H; [|reflexivity].
  rewrite forallb_forall in H. apply H in Hin. apply mem_In in Hin.
  contradiction.
Qed.

(** A request that passes every check before the loop answers with the
    report of the state the loop ends in. *)
Lemma upload_file_report (f : upload) st (resp : api_response) (s1 : S)
    (first : dict str) (more : list (dict str)) (df : dataframe) :
  truthy (filename f) = true ->
  select_sample (store st) = (Returned resp, s1) ->
  data resp = first :: more ->
  read_table f = Returned df ->
  forallb (fun c => mem c (columns df)) required_columns = true ->
  let final :=
    snd (for_each (iterrows df)
                  (process_row (build_column_map (keys first)))
                  (fresh s1 (calls st))) in
  upload_file true (Some f) st = (report final, final).
Proof.
  intros Hname Hsel Hdata Hread Hcols. cbv zeta.
  unfold upload_file. rewrite Hname. cbn [negb].
  unfold process_file, bind, execute_select, lift, init_locals, get_state, ret.
  rewrite Hsel, Hdata, Hread, Hcols. cbn [negb store calls].
  pose proof (rows_return (build_column_map (keys first)) (iterrows df)
                          (fresh s1 (calls st))) as H.
  destruct (for_each (iterrows df)
              (process_row (build_column_map (keys first)))
              (fresh s1 (calls st)))
    as [[[]|e] final]; simpl in *; [reflexivity | discriminate].
Qed.

End RunFacts.

(** * The reconciliation *)

(** ** Rows without an email *)

(** C2, as stated, fails: line 95 tests the email cell for a missing value
    only, where line 100 tests the label cell after trimming as well, so a
    row with an email cell of blanks only is not skipped; here an update
    request is sent, with the empty text as its email, and a line is
    logged. *)
Lemma whitespace_email_row_is_processed :
  let row := sheet_row (Val "Ann") (Val "   ") (Val "Foo") in
  let st' := snd (process_row sample_map row (initial participants)) in
  blank_cell (series_get "User Email" row) = true
  /\ calls st' = [([item "Foo" "Yes"], "" : str)]
  /\ update_log st' =
       [failed_line "Ann" "list index out of range"].
Proof. vm_compute. repeat split. Qed.

(** C2, amended. A row whose email cell is a missing value (an empty or
    absent cell) is skipped: processing it returns and leaves the whole
    state as it was, so no update request is sent, no line is logged and no
    bucket of the report changes.  Nothing is said here of a cell of blanks
    only. *)
Theorem missing_email_row_is_skipped {S : Type} {store_api : Store S}
    (column_map : dict str) (row : series) (st : state S) :
  notna (series_get "User Email" row) = false ->
  process_row column_map row st = (Returned tt, st)
  /\ row_request column_map row = [].
Proof.
  intros H. split; [apply process_row_no_email, H|].
  unfold row_request. rewrite H. reflexivity.
Qed.

Lemma missing_email_row_is_skipped_witness :
  let row := sheet_row (Val "Ann") NA (Val "Foo") in
  notna (series_get "User Email" row) = false
  /\ process_row sample_map row (initial participants)
     = (Returned tt, initial participants).
Proof.
  split; [reflexivity|].
  exact (proj1 (missing_email_row_is_skipped sample_map
                  (sheet_row (Val "Ann") NA (Val "Foo"))
                  (initial participants) eq_refl)).
Defined.

(** ** The payload of a row and its one request *)

(** C3. For a row with an email and a label text, every label whose
    normalized form is a key of the column map is in the payload under its
    field with the value Yes, the payload holds nothing else, and when it is
    not empty the row sends exactly one update request, carrying the whole
    payload and the email of the row: the store is left as that one
    request, made on the store the row found, leaves it, and is not touched
    when the payload is empty.  The field names of the store are taken to
    be non-empty. *)
Theorem row_stages_matches_and_updates_once {S : Type}
    {store_api : Store S} (column_map : dict str) (row : series)
    (st : state S) :
  notna (series_get "User Email" row) = true ->
  row_has_labs row = true ->
  forallb (fun kv => truthy (snd kv)) column_map = true ->
  let ud := row_payload column_map row in
  let st' := snd (process_row column_map row st) in
  (forall lab col,
      In lab (row_labs row) -> lab <> [] ->
      dict_get (normalize_name lab) column_map = Some col ->
      dict_get col ud = Some ("Yes" : str))
  /\ (forall k v,
        In (k, v) ud ->
        v = ("Yes" : str)
        /\ exists lab, In lab (row_labs row) /\ lab <> []
                       /\ dict_get (normalize_name lab) column_map = Some k)
  /\ NoDup (keys ud)
  /\ (ud <> [] -> calls st' = calls st ++ [(ud, row_email row)])
  /\ (ud = [] -> calls st' = calls st)
  /\ (ud <> [] ->
      store st' = snd (update_eq ud (row_email row) (store st)))
  /\ (ud = [] -> store st' = store st).
Proof.
  intros He Hl Hcols. cbv zeta. repeat split.
  - intros lab col Hin Hne Hget. unfold row_payload, stage_labels.
    apply (stage_sets_yes column_map _ _ _ lab); [exact Hin|].
    apply stage_field_present; [exact Hne | | exact Hget].
    apply dict_get_In in Hget. rewrite forallb_forall in Hcols.
    apply Hcols in Hget. destruct col; [discriminate | discriminate].
  - unfold row_payload, stage_labels in H.
    destruct (stage_origin _ _ _ _ _ _ H) as [[]|[Hv _]]. exact Hv.
  - unfold row_payload, stage_labels in H.
    destruct (stage_origin _ _ _ _ _ _ H) as [[]|[_ [lab [Hin Hf]]]].
    exists lab. apply stage_field_inv in Hf. tauto.
  - unfold row_payload, stage_labels. rewrite stage_keys.
    apply fold_set_add_NoDup. constructor.
  - intros Hne. rewrite process_row_calls. unfold row_request.
    rewrite He, Hl. destruct (row_payload column_map row);
      [contradiction | reflexivity].
  - intros Hnil. rewrite process_row_calls. unfold row_request.
    rewrite Hnil. rewrite andb_false_r. apply app_nil_r.
  - intros Hne. rewrite process_row_active by assumption. cbv zeta.
    destruct (row_payload column_map row) as [|kv t] eqn:E;
      [contradiction|].
    cbn [truthy].
    match goal with
    | |- store (snd (apply_update ?u ?m ?n ?s)) = _ =>
        destruct (apply_update_frame u m n s) as [_ [_ [-> _]]]
    end.
    reflexivity.
  - intros Hnil. rewrite process_row_active by assumption. cbv zeta.
    rewrite Hnil. reflexivity.
Qed.

Lemma row_stages_matches_and_updates_once_witness :
  let row :=
    sheet_row (Val "Ann") (Val "a@x.com") (Val "Foo | [Skill Badge] Bar") in
  notna (series_get "User Email" row) = true
  /\ row_has_labs row = true
  /\ forallb (fun kv => truthy (snd kv)) sample_map = true
  /\ row_payload sample_map row = [item "Foo" "Yes"; item "Bar" "Yes"]
  /\ calls (snd (process_row sample_map row (initial participants)))
     = [([item "Foo" "Yes"; item "Bar" "Yes"], "a@x.com" : str)]
  /\ store (snd (process_row sample_map row (initial participants)))
     = [[item "name" "Ann"; item "email" "a@x.com"; item "Foo" "Yes";
         item "Bar" "Yes"]].
Proof.
  cbv zeta. do 4 (split; [reflexivity|]).
  assert (Hne : row_payload sample_map
                  (sheet_row (Val "Ann") (Val "a@x.com")
                             (Val "Foo | [Skill Badge] Bar")) <> [])
    by (vm_compute; discriminate).
  pose proof (@row_stages_matches_and_updates_once table table_store
                sample_map
                (sheet_row (Val "Ann") (Val "a@x.com")
                           (Val "Foo | [Skill Badge] Bar"))
                (initial participants) eq_refl eq_refl eq_refl) as H.
  cbv zeta in H. destruct H as [_ [_ [_ [Hcalls [_ [Hstore _]]]]]].
  split; [exact (Hcalls Hne) | exact (Hstore Hne)].
Defined.

(** ** Missing columns *)

(** C8. When the uploaded table lacks one of the three required columns,
    the request ends in an error and the loop over the rows is never
    entered: no update request is sent, nothing is logged.  The error is the
    one for missing columns, with status 400, whenever the request gets as
    far as reading the table: the client is there, a file with a name was
    sent, and the schema probe returned a record. *)
Theorem missing_columns_abort {S : Type} {store_api : Store S}
    (supabase : bool) (f : upload) (df : dataframe) (st : state S)
    (col : str) :
  read_table f = Returned df ->
  In col required_columns -> ~ In col (columns df) ->
  let run := upload_file supabase (Some f) st in
  (exists status error, fst run = Failure status error)
  /\ calls (snd run) = calls st
  /\ update_log (snd run) = update_log st
  /\ total_updates (snd run) = total_updates st
  /\ mismatched_labs_log (snd run) = mismatched_labs_log st
  /\ (supabase = true -> filename f <> [] ->
      forall resp s1 first more,
        select_sample (store st) = (Returned resp, s1) ->
        data resp = first :: more ->
        fst run = Failure 400 missing_columns_error).
Proof.
  intros Hread Hin Hno. pose proof (required_missing _ Hin Hno) as Hcols.
  cbv zeta. unfold upload_file. destruct supabase; cbn [negb].
  2:{ repeat split; try (do 2 eexists; reflexivity). discriminate. }
  destruct (filename f) as [|c name] eqn:Hname; cbn [truthy negb].
  { repeat split; try (do 2 eexists; reflexivity). contradiction. }
  unfold process_file, bind, execute_select, lift, ret.
  destruct (select_sample (store st)) as [[resp|e] s1] eqn:Hsel.
  - destruct (data resp) as [|first more] eqn:Hdata.
    + repeat split; try (do 2 eexists; reflexivity).
      intros _ _ resp' s1' first' more' Heq Hd. injection Heq as <- <-.
      rewrite Hdata in Hd. discriminate.
    + rewrite Hread, Hcols. cbn. repeat split.
      do 2 eexists; reflexivity.
  - cbn. repeat split; try (do 2 eexists; reflexivity).
    intros _ _ resp' s1' first' more' Heq. discriminate.
Qed.

Lemma missing_columns_abort_witness :
  read_table two_column_sheet = Returned two_column_frame
  /\ In ("Names of Completed Skill Badges" : str) required_columns
  /\ ~ In ("Names of Completed Skill Badges" : str)
          (columns two_column_frame)
  /\ fst (upload_file true (Some two_column_sheet) (initial participants))
     = Failure 400 missing_columns_error.
Proof.
  assert (Hin : In ("Names of Completed Skill Badges" : str) required_columns)
    by (simpl; auto).
  assert (Hno : ~ In ("Names of Completed Skill Badges" : str)
                     (columns two_column_frame))
    by (simpl; intros [H|[H|[]]]; discriminate).
  split; [reflexivity|]. split; [exact Hin|]. split; [exact Hno|].
  refine (proj2 (proj2 (proj2 (proj2 (proj2
    (@missing_columns_abort table table_store true two_column_sheet
       two_column_frame (initial participants)
       ("Names of Completed Skill Badges" : str) eq_refl Hin Hno)))))
    eq_refl _ _ _ _ _ eq_refl eq_refl).
  discriminate.
Defined.

(** ** What the answer of the store is taken for *)

(** C1. The program reads the name of the first returned record before it
    looks at the count.  For an email no participant has, the store answers
    with no record and a count of 0, or none: the index fails, the handler
    of the request catches it, and the row is logged as FAILED instead of as
    having no new updates. *)
Theorem zero_count_logged_as_failure :
  update_eq [item "Foo" "Yes"] "bob@x.com" participants
  = (Returned {| data := []; count := Some 0 |}, participants)
  /\ fst (upload_file true (Some bob_sheet) (initial participants))
     = Success
         "Processing complete. Attempted to apply 0 lab completion updates."
         {| updates :=
              [("FAILED to update labs for 'Bob'. Error: list index out of range"
                : str)];
            users_not_found := [];
            mismatched_lab_names := [] |}
  /\ fst (upload_file true (Some bob_sheet) (initial no_match_script))
     = fst (upload_file true (Some bob_sheet) (initial participants)).
Proof. vm_compute. repeat split. Qed.

(** ** A request that fails *)

(** C5. When the store raises on the update request of a row, the row
    still returns: the error is caught, one FAILED line with the message is
    logged for the row, the total is unchanged, and the loop goes on with
    the rows after it, all of them, in order; the loop as a whole returns,
    and the requests of the later rows are sent. *)
Theorem failed_update_is_isolated {S : Type} {store_api : Store S}
    (column_map : dict str) (row : series) (rest : list series)
    (st : state S) (e : exn) (s' : S) :
  notna (series_get "User Email" row) = true ->
  row_has_labs row = true ->
  truthy (row_payload column_map row) = true ->
  update_eq (row_payload column_map row) (row_email row) (store st)
  = (Raised e, s') ->
  let st' := snd (process_row column_map row st) in
  process_row column_map row st = (Returned tt, st')
  /\ update_log st' = update_log st ++ [failed_line (row_user_name row) e]
  /\ total_updates st' = total_updates st
  /\ store st' = s'
  /\ for_each (row :: rest) (process_row column_map) st
     = for_each rest (process_row column_map) st'
  /\ fst (for_each (row :: rest) (process_row column_map) st) = Returned tt
  /\ calls (snd (for_each (row :: rest) (process_row column_map) st))
     = calls st ++ (row_payload column_map row, row_email row)
                   :: flat_map (row_request column_map) rest.
Proof.
  intros He Hl Hud Hraise. cbv zeta.
  split; [|split; [|split; [|split; [|split; [|split]]]]].
  - pose proof (process_row_returns column_map row st) as H.
    destruct (process_row column_map row st) as [r st']. simpl in *.
    rewrite H. reflexivity.
  - rewrite process_row_active by assumption. cbv zeta. rewrite Hud.
    match goal with
    | |- update_log (snd (apply_update ?u ?m ?n ?s)) = _ =>
        exact (proj1 (@apply_update_raised _ _ u m n s e s' Hraise))
    end.
  - rewrite process_row_active by assumption. cbv zeta. rewrite Hud.
    match goal with
    | |- total_updates (snd (apply_update ?u ?m ?n ?s)) = _ =>
        exact (proj2 (@apply_update_raised _ _ u m n s e s' Hraise))
    end.
  - rewrite process_row_active by assumption. cbv zeta. rewrite Hud.
    match goal with
    | |- store (snd (apply_update ?u ?m ?n ?s)) = _ =>
        destruct (apply_update_frame u m n s) as [_ [_ [-> _]]]
    end.
    cbn [set_mismatched snd store]. rewrite Hraise. reflexivity.
  - apply rows_cons.
  - apply rows_return.
  - rewrite rows_calls. cbn [flat_map]. unfold row_request at 1.
    rewrite He, Hl, Hud. reflexivity.
Qed.

Lemma failed_update_is_isolated_witness :
  let row1 := sheet_row (Val "Ann") (Val "a@x.com") (Val "Foo") in
  let row2 := sheet_row (Val "Bea") (Val "b@x.com") (Val "Bar") in
  let st := initial failing_script in
  update_eq (row_payload sample_map row1) (row_email row1) (store st)
  = (Raised ("connection reset" : str), succeeding_script)
  /\ update_log
       (snd (for_each [row1; row2] (process_row sample_map) st))
     = [("FAILED to update labs for 'Ann'. Error: connection reset" : str);
        ("Updated 1 labs for 'Bea': Bar." : str)].
Proof.
  cbv zeta. split; [reflexivity|].
  rewrite (proj1 (proj2 (proj2 (proj2 (proj2
    (@failed_update_is_isolated script scripted_store sample_map
       (sheet_row (Val "Ann") (Val "a@x.com") (Val "Foo"))
       [sheet_row (Val "Bea") (Val "b@x.com") (Val "Bar")]
       (initial failing_script)
       ("connection reset" : str) succeeding_script
       eq_refl eq_refl eq_refl eq_refl)))))).
  vm_compute. reflexivity.
Defined.

(** ** Labels no column stands for *)

Lemma row_labs_stripped (row : series) (lab : str) :
  In lab (row_labs row) -> strip lab = lab.
Proof.
  unfold row_labs, split_labs. rewrite in_map_iff. intros [piece [<- _]].
  apply strip_idem.
Qed.

(** C6, as stated, fails in its last part: the report lists the lines
    that quote the labels in the order of Python on these lines, which is
    not the alphabetical order of the labels.  The line of a label comes
    after the line of a longer label that goes on with a blank, the closing
    quote being compared with the blank, and a label with a capital comes
    before every label in small letters. *)
Lemma mismatches_not_alphabetical :
  fst (upload_file true (Some prefix_sheet) (initial participants))
  = Success
      "Processing complete. Attempted to apply 0 lab completion updates."
      {| updates := [];
         users_not_found := [];
         mismatched_lab_names :=
           [("'a b' from file did not match any database column." : str);
            ("'a' from file did not match any database column." : str)] |}
  /\ str_leb "a" "a b" = true
  /\ ("a" : str) <> ("a b" : str)
  /\ fst (upload_file true (Some case_sheet) (initial participants))
     = Success
         "Processing complete. Attempted to apply 0 lab completion updates."
         {| updates := [];
            users_not_found := [];
            mismatched_lab_names :=
              [("'Zed' from file did not match any database column." : str);
               ("'apple' from file did not match any database column."
                : str)] |}
  /\ str_leb (lower "apple") (lower "Zed") = true
  /\ lower "apple" <> lower "Zed".
Proof. vm_compute. repeat split; discriminate. Qed.

(** C6, amended. In a run that reaches the loop, a label of a processed
    row whose normalized form is not a key of the column map is never put
    in a payload: its step leaves the payload as it is and adds, to the
    mismatch set, the line that quotes the label.  The label is a piece of
    the cell between two bars with the whitespace at both ends taken off
    and nothing else changed.  The line is in the report, whose list of
    mismatches has no line twice, whatever the number of rows naming the
    label, and is in the order of Python on texts, by code points, taken on
    the lines. *)
Theorem unmatched_label_is_reported {S : Type} {store_api : Store S}
    (f : upload) (st : state S) (resp : api_response) (s1 : S)
    (first : dict str) (more : list (dict str)) (df : dataframe)
    (row : series) (lab : str) :
  truthy (filename f) = true ->
  select_sample (store st) = (Returned resp, s1) ->
  data resp = first :: more ->
  read_table f = Returned df ->
  forallb (fun c => mem c (columns df)) required_columns = true ->
  In row (iterrows df) ->
  notna (series_get "User Email" row) = true ->
  row_has_labs row = true ->
  In lab (row_labs row) -> lab <> [] ->
  dict_get (normalize_name lab) (build_column_map (keys first)) = None ->
  let column_map := build_column_map (keys first) in
  let cell :=
    str_of_cell (series_get "Names of Completed Skill Badges" row) in
  let line := "'" ++ lab ++ "' from file did not match any database column." in
  (head_is is_space lab = false
   /\ head_is is_space (rev lab) = false
   /\ exists piece u v,
        In piece (split "|"%char cell)
        /\ piece = u ++ lab ++ v
        /\ forallb is_space u = true /\ forallb is_space v = true)
  /\ (forall ud mm,
        stage_label column_map (ud, mm) lab = (ud, set_add line mm))
  /\ exists message details,
       fst (upload_file true (Some f) st) = Success message details
       /\ In line (mismatched_lab_names details)
       /\ NoDup (mismatched_lab_names details)
       /\ StronglySorted str_le (mismatched_lab_names details).
Proof.
  intros Hname Hsel Hdata Hread Hcols Hrow He Hl Hlab Hne Hget. cbv zeta.
  pose proof (stage_field_absent _ _ Hget) as Hf.
  assert (Hline : mismatch_line lab =
                  "'" ++ lab ++ "' from file did not match any database column.")
    by (unfold mismatch_line; rewrite (row_labs_stripped _ _ Hlab);
        reflexivity).
  split; [|split].
  - pose proof Hlab as Hpiece. unfold row_labs, split_labs in Hpiece.
    apply in_map_iff in Hpiece. destruct Hpiece as [piece [Hs Hin]].
    subst lab. split; [apply strip_head|]. split; [apply strip_last|].
    destruct (strip_split is_space piece) as [u [v [E [Hu Hv]]]].
    exists piece, u, v. auto.
  - intros ud mm. rewrite stage_label_cases, Hf, <- Hline.
    destruct lab; [contradiction | reflexivity].
  - rewrite (upload_file_report _ _ Hname Hsel Hdata Hread Hcols).
    unfold report. cbn [fst]. do 2 eexists. split; [reflexivity|].
    cbn [mismatched_lab_names]. rewrite <- Hline. split; [|split].
    + apply sorted_In. apply (rows_mismatch_records _ _ _ _ Hrow); assumption.
    + apply sorted_NoDup, rows_mismatch_NoDup. constructor.
    + apply sorted_StronglySorted.
Qed.

Lemma unmatched_label_is_reported_witness :
  row_labs (sheet_row (Val "Ann") (Val "a@x.com") (Val "Foo |  Quux "))
  = ["Foo" : str; "Quux" : str]
  /\ dict_get (normalize_name "Quux") sample_map = None
  /\ exists message details,
       fst (upload_file true (Some stray_sheet) (initial participants))
       = Success message details
       /\ In ("'Quux' from file did not match any database column." : str)
             (mismatched_lab_names details)
       /\ NoDup (mismatched_lab_names details)
       /\ StronglySorted str_le (mismatched_lab_names details).
Proof.
  split; [reflexivity|]. split; [reflexivity|].
  refine (proj2 (proj2
    (@unmatched_label_is_reported table table_store stray_sheet
       (initial participants) {| data := participants; count := None |}
       participants
       [item "name" "Ann"; item "email" "a@x.com"; item "Foo" "";
        item "Bar" ""] [] stray_frame
       (sheet_row (Val "Ann") (Val "a@x.com") (Val "Foo |  Quux "))
       ("Quux" : str)
       eq_refl eq_refl eq_refl eq_refl eq_refl _ eq_refl eq_refl _ _
       eq_refl))).
  - left. reflexivity.
  - vm_compute. right. left. reflexivity.
  - discriminate.
Defined.

(** ** The email of the filter *)

(** C7, as stated, fails: the email of the cell is trimmed before it is
    used, so a cell with a blank in front reaches the filter without it. *)
Lemma padded_email_is_trimmed :
  let row := sheet_row (Val "Ann") (Val " a@x.com") (Val "Foo") in
  series_get "User Email" row = Val " a@x.com"
  /\ calls (snd (process_row sample_map row (initial participants)))
     = [([item "Foo" "Yes"], "a@x.com" : str)]
  /\ ("a@x.com" : str) <> (" a@x.com" : str).
Proof. vm_compute. repeat split. discriminate. Qed.

(** C7, amended. The email of every update request a run sends is the text
    of the email cell of one of its rows with the whitespace at both ends
    taken off and nothing else changed: the cell is that email between two
    runs of whitespace, so the case of its letters and every character
    inside are as given. *)
Theorem filter_email_is_trimmed_cell {S : Type} {store_api : Store S}
    (column_map : dict str) (rows : list series) (st : state S)
    (ud : dict str) (email : str) :
  In (ud, email)
     (calls (snd (for_each rows (process_row column_map) st))) ->
  In (ud, email) (calls st)
  \/ exists row e u v,
       In row rows
       /\ series_get "User Email" row = Val e
       /\ email = strip e
       /\ e = u ++ email ++ v
       /\ forallb is_space u = true /\ forallb is_space v = true.
Proof.
  rewrite rows_calls, in_app_iff, in_flat_map.
  intros [H|[row [Hrow Hreq]]]; [left; exact H | right].
  unfold row_request in Hreq.
  destruct (series_get "User Email" row) as [|e] eqn:He;
    [destruct Hreq|].
  destruct (notna (Val e) && row_has_labs row
            && truthy (row_payload column_map row)); [|destruct Hreq].
  destruct Hreq as [Heq|[]]. injection Heq as _ <-.
  unfold row_email. rewrite He. cbn [str_of_cell].
  destruct (strip_split is_space e) as [u [v [Hs [Hu Hv]]]].
  exists row, e, u, v. repeat split; assumption.
Qed.

Lemma filter_email_is_trimmed_cell_witness :
  let row := sheet_row (Val "Ann") (Val " A@x.com ") (Val "Foo") in
  In ([item "Foo" "Yes"], "A@x.com" : str)
     (calls (snd (for_each [row] (process_row sample_map)
                           (initial participants))))
  /\ exists r e u v,
       In r [row]
       /\ series_get "User Email" r = Val e
       /\ ("A@x.com" : str) = strip e
       /\ e = u ++ ("A@x.com" : str) ++ v
       /\ forallb is_space u = true /\ forallb is_space v = true.
Proof.
  cbv zeta.
  assert (Hin : In ([item "Foo" "Yes"], "A@x.com" : str)
     (calls (snd (for_each
        [sheet_row (Val "Ann") (Val " A@x.com ") (Val "Foo")]
        (process_row sample_map) (initial participants)))))
    by (vm_compute; left; reflexivity).
  split; [exact Hin|].
  destruct (filter_email_is_trimmed_cell _ _ _ _ _ Hin) as [[]|H].
  exact H.
Defined.

(** ** One entry per field *)

Lemma payload_keys (column_map : dict str) (row : series) :
  keys (row_payload column_map row) =
  fold_left (fun ks c => set_add c ks)
            (matched_fields column_map (row_labs row)) [].
Proof. unfold row_payload, stage_labels. apply stage_keys. Qed.

Lemma matched_fields_length (column_map : dict str) (labs : list str) :
  List.length (matched_fields column_map labs) <= List.length labs.
Proof.
  induction labs as [|lab rest IH]; [reflexivity|].
  unfold matched_fields in *. cbn [flat_map]. rewrite length_app.
  destruct (stage_field column_map lab); simpl; lia.
Qed.

(** C10. The payload of a row has one entry for each field, however many
    labels of the row stand for the field: its keys are the fields of the
    staged labels without repetition, so their number is the number of
    distinct fields, at most the number of labels.  When the request
    succeeds with a positive count, that number is the one in the logged
    line and the one added to the total. *)
Theorem payload_counts_fields_once {S : Type} {store_api : Store S}
    (column_map : dict str) (row : series) (st : state S)
    (resp : api_response) (s' : S) (record : dict str)
    (more : list (dict str)) (v : str) :
  notna (series_get "User Email" row) = true ->
  row_has_labs row = true ->
  truthy (row_payload column_map row) = true ->
  update_eq (row_payload column_map row) (row_email row) (store st)
  = (Returned resp, s') ->
  data resp = record :: more ->
  dict_get "name" record = Some v ->
  positive (count resp) = true ->
  let ud := row_payload column_map row in
  let fields := matched_fields column_map (row_labs row) in
  let st' := snd (process_row column_map row st) in
  NoDup (keys ud)
  /\ (forall col, In col (keys ud) <-> In col fields)
  /\ (forall lab col,
        In lab (row_labs row) -> stage_field column_map lab = Some col ->
        count_occ (list_eq_dec ascii_dec) (keys ud) col = 1
        /\ dict_get col ud = Some ("Yes" : str))
  /\ List.length ud
     = List.length (nodup (list_eq_dec ascii_dec) fields)
  /\ List.length ud <= List.length (row_labs row)
  /\ update_log st'
     = update_log st
         ++ [updated_line (List.length ud) (row_user_name row) (keys ud)]
  /\ total_updates st' = total_updates st + List.length ud.
Proof.
  intros He Hl Hud Hupd Hdata Hname Hpos. cbv zeta.
  assert (Hnd : NoDup (keys (row_payload column_map row)))
    by (rewrite payload_keys; apply fold_set_add_NoDup; constructor).
  assert (Hkeys : forall col,
             In col (keys (row_payload column_map row))
             <-> In col (matched_fields column_map (row_labs row))).
  { intros col. rewrite payload_keys, fold_set_add_In. simpl. tauto. }
  assert (Hlen : List.length (row_payload column_map row)
                 = List.length
                     (nodup (list_eq_dec ascii_dec)
                        (matched_fields column_map (row_labs row)))).
  { transitivity (List.length (keys (row_payload column_map row)));
      [unfold keys; symmetry; apply length_map|].
    apply Permutation_length, NoDup_Permutation;
      [exact Hnd | apply NoDup_nodup|].
    intros col. rewrite nodup_In. apply Hkeys. }
  split; [exact Hnd|]. split; [exact Hkeys|]. split; [|split; [exact Hlen|]].
  - intros lab col Hin Hf.
    assert (Hy : dict_get col (row_payload column_map row)
                 = Some ("Yes" : str))
      by (unfold row_payload, stage_labels;
          apply (stage_sets_yes column_map _ _ _ lab); assumption).
    split; [|exact Hy].
    apply NoDup_count_occ'; [exact Hnd|].
    apply dict_get_In in Hy. apply (dict_In_keys _ _ _ Hy).
  - split.
    + rewrite Hlen.
      etransitivity; [|apply (matched_fields_length column_map)].
      apply NoDup_incl_length; [apply NoDup_nodup|].
      intros x Hx. apply nodup_In in Hx. exact Hx.
    + rewrite process_row_active by assumption. cbv zeta. rewrite Hud.
      match goal with
      | |- context [apply_update ?u ?m ?n ?s] =>
          pose proof (@apply_update_counted _ _ u m n s resp s' record more v
                        Hupd Hdata Hname) as H
      end.
      cbv zeta in H. rewrite Hpos in H. exact H.
Qed.

Lemma payload_counts_fields_once_witness :
  let row :=
    sheet_row (Val "Ann") (Val "a@x.com")
              (Val "Foo | [Skill Badge] foo |FOO") in
  List.length (row_labs row) = 3
  /\ row_payload sample_map row = [item "Foo" "Yes"]
  /\ update_log (snd (process_row sample_map row (initial participants)))
     = [("Updated 1 labs for 'Ann': Foo." : str)]
  /\ total_updates (snd (process_row sample_map row (initial participants)))
     = 1.
Proof.
  cbv zeta. split; [reflexivity|]. split; [reflexivity|].
  exact (proj2 (proj2 (proj2 (proj2 (proj2
    (@payload_counts_fields_once table table_store sample_map
       (sheet_row (Val "Ann") (Val "a@x.com")
                  (Val "Foo | [Skill Badge] foo |FOO"))
       (initial participants)
       {| data := [[item "name" "Ann"; item "email" "a@x.com";
                    item "Foo" "Yes"; item "Bar" ""]];
          count := Some 1 |}
       [[item "name" "Ann"; item "email" "a@x.com";
         item "Foo" "Yes"; item "Bar" ""]]
       [item "name" "Ann"; item "email" "a@x.com";
        item "Foo" "Yes"; item "Bar" ""]
       [] ("Ann" : str)
       eq_refl eq_refl eq_refl eq_refl eq_refl eq_refl eq_refl)))))).
Defined.

(** * Further properties *)

(** ** The column map *)

Lemma fold_set_add_fresh (xs ks : list str) :
  NoDup (ks ++ xs) ->
  fold_left (fun ks c => set_add c ks) xs ks = ks ++ xs.
Proof.
  revert ks. induction xs as [|x t IH]; intros ks H; simpl.
  - symmetry. apply app_nil_r.
  - assert (Hx : mem x ks = false).
    { apply mem_not_In. intros Hin. apply NoDup_remove_2 in H.
      apply H, in_or_app. left. exact Hin. }
    unfold set_add at 2. rewrite Hx.
    rewrite IH; rewrite <- app_assoc; [reflexivity | exact H].
Qed.

Lemma dict_set_fresh {V : Type} (k : str) (v : V) (d : dict V) :
  ~ In k (keys d) -> dict_set k v d = d ++ [(k, v)].
Proof.
  induction d as [|[k' v'] t IH]; simpl; intros H; [reflexivity|].
  destruct (str_eqb k k') eqn:He.
  - apply str_eqb_eq in He. exfalso. apply H. left. symmetry. exact He.
  - rewrite IH; [reflexivity|]. intros Hin. apply H. right. exact Hin.
Qed.

Lemma column_fold_entries (cols : list str) (m : dict str) (k v : str) :
  In (k, v)
     (fold_left (fun m col => dict_set (normalize_name col) col m) cols m) ->
  In (k, v) m \/ (In v cols /\ k = normalize_name v).
Proof.
  revert m. induction cols as [|c rest IH]; intros m; simpl; [auto|].
  intros H. destruct (IH _ H) as [H1|[H1 H2]]; [|auto].
  destruct (dict_set_In _ _ _ _ _ H1) as [[-> ->]|H3]; auto.
Qed.

Lemma column_fold_keys (cols : list str) (m : dict str) :
  keys (fold_left (fun m col => dict_set (normalize_name col) col m) cols m)
  = fold_left (fun ks c => set_add c ks) (map normalize_name cols) (keys m).
Proof.
  revert m. induction cols as [|c rest IH]; intros m; simpl; [reflexivity|].
  rewrite IH, dict_set_keys. reflexivity.
Qed.

Lemma column_fold_keeps (cols : list str) (m : dict str) (k v : str) :
  (forall c, In c cols -> normalize_name c <> k) ->
  dict_get k m = Some v ->
  dict_get k
    (fold_left (fun m col => dict_set (normalize_name col) col m) cols m)
  = Some v.
Proof.
  revert m. induction cols as [|c rest IH]; intros m Hk Hget; simpl;
    [exact Hget|].
  apply IH; [intros c' Hc'; apply Hk; right; exact Hc'|].
  rewrite dict_get_set_other; [exact Hget|]. apply Hk. left. reflexivity.
Qed.

Lemma column_fold_fresh (cols : list str) (m : dict str) :
  NoDup (keys m ++ map normalize_name cols) ->
  fold_left (fun m col => dict_set (normalize_name col) col m) cols m
  = m ++ map (fun c => (normalize_name c, c)) cols.
Proof.
  revert m. induction cols as [|c rest IH]; intros m H; simpl.
  - symmetry. apply app_nil_r.
  - assert (Hc : ~ In (normalize_name c) (keys m)).
    { intros Hin. simpl in H. apply NoDup_remove_2 in H.
      apply H, in_or_app. left. exact Hin. }
    rewrite (dict_set_fresh _ _ _ Hc). rewrite IH.
    + rewrite <- app_assoc. reflexivity.
    + unfold keys. rewrite map_app. simpl. rewrite <- app_assoc. exact H.
Qed.

(** X1. When no two columns of the probed record have the same normalized
    name, the column map has one entry per column, in the order of the
    columns, each under the normalized name of its column; so the lookup of
    the normalized name of a column gives that column. *)
Theorem column_map_without_collision (original_columns : list str) :
  NoDup (map normalize_name original_columns) ->
  build_column_map original_columns
  = map (fun c => (normalize_name c, c)) original_columns
  /\ List.length (build_column_map original_columns)
     = List.length original_columns
  /\ forall col, In col original_columns ->
       dict_get (normalize_name col) (build_column_map original_columns)
       = Some col.
Proof.
  intros H.
  assert (E : build_column_map original_columns
              = map (fun c => (normalize_name c, c)) original_columns)
    by (unfold build_column_map; rewrite column_fold_fresh; [reflexivity|];
        exact H).
  split; [exact E|]. split; [rewrite E; apply length_map|].
  intros col Hin. apply in_split in Hin. destruct Hin as [l1 [l2 ->]].
  unfold build_column_map. rewrite fold_left_app. cbn [fold_left].
  apply column_fold_keeps; [|apply dict_get_set_same].
  intros c Hc Heq. rewrite map_app in H. simpl in H.
  apply NoDup_remove_2 in H. apply H, in_or_app. right.
  rewrite <- Heq. apply in_map, Hc.
Qed.

Lemma column_map_without_collision_witness :
  NoDup (map normalize_name
           ["name" : str; "email" : str; "Foo" : str; "Bar" : str])
  /\ sample_map
     = [item "name" "name"; item "email" "email"; item "foo" "Foo";
        item "bar" "Bar"].
Proof.
  assert (H : NoDup (map normalize_name
                       ["name" : str; "email" : str; "Foo" : str;
                        "Bar" : str])).
  { vm_compute. repeat constructor; simpl; intuition discriminate. }
  split; [exact H|].
  exact (proj1 (column_map_without_collision _ H)).
Defined.

(** X2. When several columns have the same normalized name, the last of
    them is the one the map gives for that name: a label that normalizes to
    it is written to that column and to none of the earlier ones. *)
Theorem column_map_last_column_wins (before after : list str) (col : str) :
  (forall c, In c after -> normalize_name c <> normalize_name col) ->
  dict_get (normalize_name col) (build_column_map (before ++ col :: after))
  = Some col.
Proof.
  intros H. unfold build_column_map. rewrite fold_left_app. cbn [fold_left].
  apply column_fold_keeps; [exact H | apply dict_get_set_same].
Qed.

Lemma column_map_last_column_wins_witness :
  dict_get "intro_to_genai"
    (build_column_map
       ["name" : str; "Intro to Gen AI" : str; "intro-to-genai" : str;
        "email" : str])
  = Some ("intro-to-genai" : str).
Proof.
  refine (column_map_last_column_wins ["name" : str; "Intro to Gen AI" : str]
            ["email" : str] ("intro-to-genai" : str) _).
  intros c [<-|[]]. vm_compute. discriminate.
Defined.

(** X3. Every entry of the column map is a column of the probed record
    under its own normalized name, no key is there twice, every key has the
    shape of a normalized key, and the normalized name of every column is
    a key, whose value is a column with that same normalized name. *)
Theorem column_map_entries (original_columns : list str) :
  let column_map := build_column_map original_columns in
  (forall k v, In (k, v) column_map ->
               In v original_columns /\ k = normalize_name v
               /\ normalized_key k)
  /\ NoDup (keys column_map)
  /\ List.length column_map <= List.length original_columns
  /\ (forall col, In col original_columns ->
        exists c, dict_get (normalize_name col) column_map = Some c
                  /\ In c original_columns
                  /\ normalize_name c = normalize_name col).
Proof.
  cbv zeta.
  assert (Hent : forall k v, In (k, v) (build_column_map original_columns) ->
                   In v original_columns /\ k = normalize_name v).
  { intros k v H. destruct (column_fold_entries _ _ _ _ H) as [[]|H1].
    exact H1. }
  assert (Hkeys : keys (build_column_map original_columns)
                  = fold_left (fun ks c => set_add c ks)
                              (map normalize_name original_columns) [])
    by apply column_fold_keys.
  assert (Hnd : NoDup (keys (build_column_map original_columns)))
    by (rewrite Hkeys; apply fold_set_add_NoDup; constructor).
  split; [|split; [exact Hnd|split]].
  - intros k v H. destruct (Hent _ _ H) as [H1 H2].
    split; [exact H1|]. split; [exact H2|]. rewrite H2.
    apply normalize_name_key.
  - rewrite <- (length_map fst). fold (keys (build_column_map original_columns)).
    rewrite <- (length_map normalize_name original_columns).
    apply NoDup_incl_length; [exact Hnd|].
    intros k Hk. rewrite Hkeys in Hk. apply fold_set_add_In in Hk.
    destruct Hk as [[]|Hk]. exact Hk.
  - intros col Hin.
    destruct (dict_get (normalize_name col)
                (build_column_map original_columns)) as [c|] eqn:Hget.
    + exists c. apply dict_get_In in Hget. destruct (Hent _ _ Hget) as [H1 H2].
      split; [reflexivity|]. split; [exact H1 | symmetry; exact H2].
    + exfalso.
      assert (Hk : In (normalize_name col)
                      (keys (build_column_map original_columns))).
      { rewrite Hkeys. apply fold_set_add_In. right. apply in_map, Hin. }
      clear - Hk Hget.
      induction (build_column_map original_columns) as [|[k v] t IH];
        [destruct Hk|].
      simpl in *. destruct (str_eqb (normalize_name col) k) eqn:He;
        [discriminate|].
      destruct Hk as [Hk|Hk]; [|exact (IH Hget Hk)].
      subst k. rewrite str_eqb_refl in He. discriminate.
Qed.

(** ** The letters and digits of a key *)

Lemma space_not_alnum (c : ascii) : is_space c = true -> is_alnum c = false.
Proof. by_cases_on c. Qed.

Lemma lower_char_bracket (c : ascii) :
  lower_char c = "["%char -> c = "["%char.
Proof. by_cases_on c. Qed.

Lemma filter_none (p q : ascii -> bool) (u : str) :
  (forall c, p c = true -> q c = false) ->
  forallb p u = true -> filter q u = [].
Proof.
  intros Hpq. induction u as [|c t IH]; simpl; [reflexivity|].
  intros H. apply andb_true_iff in H. destruct H as [Hc Ht].
  rewrite (Hpq _ Hc). apply IH, Ht.
Qed.

Lemma strip_filter (p q : ascii -> bool) (s : str) :
  (forall c, p c = true -> q c = false) ->
  filter q (strip_of p s) = filter q s.
Proof.
  intros Hpq. destruct (strip_split p s) as [u [v [Hs [Hu Hv]]]].
  rewrite Hs at 2. rewrite !filter_app.
  rewrite (filter_none _ _ _ Hpq Hu), (filter_none _ _ _ Hpq Hv).
  rewrite app_nil_r. reflexivity.
Qed.

Lemma sub_runs_filter (b : bool) (s : str) :
  filter is_alnum (sub_runs "_" b s) = filter is_alnum s.
Proof.
  revert b. induction s as [|c t IH]; intros b; simpl; [reflexivity|].
  destruct (is_alnum c) eqn:Hc.
  - simpl. rewrite Hc, IH. reflexivity.
  - destruct b; [apply IH|]. simpl. apply IH.
Qed.

Lemma replace_filter (q : ascii -> bool) (old new s : str) :
  old <> [] -> filter q old = filter q new ->
  filter q (replace old new s) = filter q s.
Proof.
  intros Hne Hq.
  assert (H : forall n s, List.length s <= n ->
                filter q (replace old new s) = filter q s).
  { clear s. induction n as [|n IH]; intros s Hlen.
    - destruct s; [reflexivity | simpl in Hlen; lia].
    - destruct s as [|c t]; [reflexivity|].
      destruct (starts_with old (c :: t)) eqn:Hp.
      + destruct (starts_with_prefix _ _ Hp) as [u Hu]. rewrite Hu.
        rewrite (replace_prefix _ _ Hne), !filter_app, Hq. f_equal.
        apply IH. apply (f_equal (@List.length ascii)) in Hu.
        rewrite length_app in Hu. simpl in Hu, Hlen.
        destruct old; [contradiction|]. simpl in Hu. lia.
      + rewrite (@replace_miss old new c t Hp). simpl. rewrite IH by (simpl in Hlen; lia).
        reflexivity. }
  apply (H (List.length s)). reflexivity.
Qed.

(** X4. Normalization keeps the letters and digits of the lowercased text,
    all of them and in their order, when the text has no opening bracket
    (so no tag to remove): it only changes what stands between them.  Two
    such labels with the same key have the same letters and digits. *)
Theorem normalize_name_keeps_alnum (x : str) :
  ~ In "["%char x ->
  filter is_alnum (normalize_name x) = filter is_alnum (lower x).
Proof.
  intros Hx. unfold normalize_name, re_sub_non_alnum, strip.
  rewrite strip_filter by apply underscore_not_alnum.
  rewrite sub_runs_filter.
  rewrite replace_filter by (try discriminate; reflexivity).
  rewrite strip_filter by apply space_not_alnum.
  rewrite (@replace_absent "[skill badge]" "" (lower x) "["%char);
    [reflexivity | simpl; auto |].
  unfold lower. rewrite in_map_iff. intros [c [Hc Hin]].
  apply lower_char_bracket in Hc. subst c. exact (Hx Hin).
Qed.

Lemma normalize_name_keeps_alnum_witness :
  ~ In "["%char ("Intro to Gen-AI (2)" : str)
  /\ filter is_alnum (normalize_name "Intro to Gen-AI (2)")
     = ("introtogenai2" : str).
Proof.
  assert (H : ~ In "["%char ("Intro to Gen-AI (2)" : str))
    by (simpl; intuition discriminate).
  split; [exact H|].
  exact (normalize_name_keeps_alnum _ H).
Defined.

(** ** A key is the words of the text *)

Lemma alnum_not_underscore (c : ascii) :
  is_alnum c = true -> is_underscore c = false.
Proof. by_cases_on c. Qed.

Lemma rstrip_cons_keep (p : ascii -> bool) (c : ascii) (t : str) :
  p c = false -> rstrip_of p (c :: t) = c :: rstrip_of p t.
Proof. simpl. intros ->. destruct (rstrip_of p t); reflexivity. Qed.

Lemma sub_runs_true_head (s : str) :
  head_is is_underscore (sub_runs "_" true s) = false.
Proof.
  induction s as [|c t IH]; simpl; [reflexivity|].
  destruct (is_alnum c) eqn:Hc; [|exact IH].
  simpl. apply alnum_not_underscore, Hc.
Qed.

Lemma lstrip_sub_runs (s : str) :
  lstrip_of is_underscore (sub_runs "_" false s) = sub_runs "_" true s.
Proof.
  destruct s as [|c t]; [reflexivity|]. cbn [sub_runs].
  destruct (is_alnum c) eqn:Hc.
  - cbn [lstrip_of]. rewrite (alnum_not_underscore _ Hc). reflexivity.
  - change (list_ascii_of_string "_" ++ sub_runs "_" true t)
      with ("_"%char :: sub_runs "_" true t).
    cbn [lstrip_of]. change (is_underscore "_") with true. cbv iota.
    apply lstrip_fixed, sub_runs_true_head.
Qed.

Lemma words_head (s w : str) (ws : list str) :
  words s = w :: ws -> w <> [].
Proof.
  revert w ws. induction s as [|c t IH]; intros w ws; simpl; [discriminate|].
  destruct (is_alnum c); [|apply IH].
  destruct (head_is is_alnum t).
  - destruct (words t); intros H; injection H as <- _; discriminate.
  - intros H; injection H as <- _; discriminate.
Qed.

Lemma join_head (sep w : str) (ws : list str) :
  w <> [] -> join sep (w :: ws) <> [].
Proof.
  destruct w as [|c w]; [contradiction|]. intros _.
  destruct ws; simpl; discriminate.
Qed.

Lemma join_cons_word (sep w : str) (ws : list str) (c : ascii) :
  join sep ((c :: w) :: ws) = c :: join sep (w :: ws).
Proof. destruct ws; reflexivity. Qed.

Lemma words_cons_alnum (c : ascii) (t : str) :
  is_alnum c = true ->
  join "_" (words (c :: t)) =
  c :: (if head_is is_alnum t then join "_" (words t)
        else match words t with
             | [] => []
             | _ :: _ => "_"%char :: join "_" (words t)
             end).
Proof.
  intros Hc. cbn [words]. rewrite Hc. destruct (head_is is_alnum t).
  - destruct (words t) as [|w ws]; [reflexivity | apply join_cons_word].
  - destruct (words t) as [|w ws]; reflexivity.
Qed.

Lemma rstrip_sub_runs (s : str) :
  rstrip_of is_underscore (sub_runs "_" true s) = join "_" (words s)
  /\ rstrip_of is_underscore (sub_runs "_" false s)
     = if head_is is_alnum s then join "_" (words s)
       else match words s with
            | [] => []
            | _ :: _ => "_"%char :: join "_" (words s)
            end.
Proof.
  induction s as [|c t [IHa IHb]]; [split; reflexivity|].
  destruct (is_alnum c) eqn:Hc.
  - assert (E : forall b, rstrip_of is_underscore (sub_runs "_" b (c :: t))
                          = join "_" (words (c :: t))).
    { intros b. cbn [sub_runs]. rewrite Hc.
      rewrite rstrip_cons_keep by (apply alnum_not_underscore, Hc).
      rewrite IHb. symmetry. apply words_cons_alnum, Hc. }
    split; [apply E|]. cbn [head_is]. rewrite Hc. apply E.
  - split.
    + cbn [sub_runs words]. rewrite Hc. exact IHa.
    + cbn [sub_runs words head_is]. rewrite Hc.
      change (list_ascii_of_string "_" ++ sub_runs "_" true t)
        with ("_"%char :: sub_runs "_" true t).
      cbn [rstrip_of]. rewrite IHa.
      destruct (words t) as [|w ws] eqn:Hw; [reflexivity|].
      pose proof (join_head "_" ws (words_head _ Hw)) as Hj.
      destruct (join "_" (w :: ws)); [contradiction | reflexivity].
Qed.

Lemma words_concat (s : str) : List.concat (words s) = filter is_alnum s.
Proof.
  induction s as [|c t IH]; simpl; [reflexivity|].
  destruct (is_alnum c); [|exact IH].
  destruct (head_is is_alnum t).
  - rewrite <- IH. destruct (words t); reflexivity.
  - simpl. rewrite IH. reflexivity.
Qed.

Lemma words_alnum (s w : str) :
  In w (words s) -> w <> [] /\ forallb is_alnum w = true.
Proof.
  revert w. induction s as [|c t IH]; intros w; simpl; [intros []|].
  destruct (is_alnum c) eqn:Hc; [|apply IH].
  destruct (head_is is_alnum t).
  - destruct (words t) as [|w0 ws].
    + intros [<-|[]]. simpl. rewrite Hc. split; [discriminate | reflexivity].
    + intros [<-|H].
      * simpl. rewrite Hc. split; [discriminate|].
        apply IH. left. reflexivity.
      * apply IH. right. exact H.
  - intros [<-|H]; [|apply IH, H].
    simpl. rewrite Hc. split; [discriminate | reflexivity].
Qed.

(** X5. The key of a name is the words of the name joined by single
    underscores, a word being a maximal run of lowercase letters and digits
    of the text left once it is lowercased, the tag is removed, the ends
    are trimmed and "gen ai" is made "genai": whatever stands between the
    words, and how much of it, makes no difference to the key. *)
Theorem normalize_name_joins_words (name : str) :
  normalize_name name = join "_" (words (folded name))
  /\ List.concat (words (folded name)) = filter is_alnum (folded name)
  /\ forall w, In w (words (folded name)) ->
               w <> [] /\ forallb is_alnum w = true.
Proof.
  split; [|split; [apply words_concat | apply words_alnum]].
  unfold normalize_name, re_sub_non_alnum, strip_of. fold (folded name).
  rewrite lstrip_sub_runs. apply rstrip_sub_runs.
Qed.

(** ** The labels of a cell *)

Lemma split_cons (sep : ascii) (s : str) :
  exists p ps, split sep s = p :: ps.
Proof.
  induction s as [|c t [p [ps IH]]]; simpl; [eauto|].
  destruct (ascii_dec c sep); [eauto|]. rewrite IH. eauto.
Qed.

Lemma split_no_sep (sep : ascii) (s p : str) :
  In p (split sep s) -> ~ In sep p.
Proof.
  revert p. induction s as [|c t IH]; intros p; simpl.
  - intros [<-|[]] [].
  - destruct (ascii_dec c sep) as [->|Hne].
    + intros [<-|H]; [intros [] | apply IH, H].
    + destruct (split sep t) as [|q qs]; [intros [<-|[]] [H|[]]; auto|].
      intros [<-|H].
      * intros [H|H]; [auto|]. revert H. apply IH. left. reflexivity.
      * apply IH. right. exact H.
Qed.

Lemma split_length (sep : ascii) (s : str) :
  List.length (split sep s) = 1 + count_occ ascii_dec s sep.
Proof.
  induction s as [|c t IH]; simpl; [reflexivity|].
  destruct (ascii_dec c sep) as [->|Hne]; simpl; [rewrite IH; reflexivity|].
  destruct (split_cons sep t) as [p [ps E]]. rewrite E in *. simpl in *.
  exact IH.
Qed.

Lemma join_split (sep : ascii) (s : str) : join [sep] (split sep s) = s.
Proof.
  induction s as [|c t IH]; simpl; [reflexivity|].
  destruct (split_cons sep t) as [p [ps E]]. rewrite E in *.
  destruct (ascii_dec c sep) as [->|Hne].
  - change (join [sep] ([] :: p :: ps))
      with ([] ++ [sep] ++ join [sep] (p :: ps)).
    rewrite IH. reflexivity.
  - rewrite join_cons_word, IH. reflexivity.
Qed.

(** X6. The labels of a cell are one more than its bars.  No label has a
    bar in it or whitespace at either end, and the pieces between the bars,
    before they are trimmed, joined by bars give the cell back: the split
    loses nothing but the whitespace around the pieces. *)
Theorem split_labs_pieces (s : str) :
  List.length (split_labs s) = 1 + count_occ ascii_dec s "|"%char
  /\ (forall lab, In lab (split_labs s) ->
        ~ In "|"%char lab
        /\ strip lab = lab
        /\ head_is is_space lab = false
        /\ head_is is_space (rev lab) = false)
  /\ join "|" (split "|"%char s) = s
  /\ (forall lab, In lab (split_labs s) <->
        exists piece, In piece (split "|"%char s) /\ lab = strip piece).
Proof.
  unfold split_labs. split; [|split; [|split]].
  - rewrite length_map. apply split_length.
  - intros lab Hin. apply in_map_iff in Hin. destruct Hin as [p [<- Hp]].
    split; [|split; [apply strip_idem |
                     split; [apply strip_head | apply strip_last]]].
    intros Hbar. apply (split_no_sep _ _ _ Hp).
    destruct (strip_split is_space p) as [u [v [E _]]]. rewrite E.
    apply in_or_app. right. apply in_or_app. left. exact Hbar.
  - apply (join_split "|"%char).
  - intros lab. rewrite in_map_iff. split; intros [p [H1 H2]]; exists p; auto.
Qed.

(** ** The answers of a request *)

Section Answers.

Context {S : Type} {store_api : Store S}.

Implicit Types (st : state S) (f : upload).

Lemma untouched_refl st : untouched st st.
Proof. repeat split. Qed.

(** Every way a request can go, in the order the checks are made. *)
Lemma upload_file_cases (supabase : bool) (file : option upload) st :
  let run := upload_file supabase file st in
  (supabase = false /\ run = (Failure 500 not_initialized_error, st))
  \/ (supabase = true /\ file = None
      /\ run = (Failure 400 "No file part in the request", st))
  \/ (exists f, supabase = true /\ file = Some f /\ filename f = []
                /\ run = (Failure 400 "No file selected", st))
  \/ (exists f e s1,
        supabase = true /\ file = Some f /\ truthy (filename f) = true
        /\ select_sample (store st) = (Raised e, s1)
        /\ fst run = Failure 500 (processing_error e)
        /\ store (snd run) = s1 /\ untouched st (snd run))
  \/ (exists f resp s1,
        supabase = true /\ file = Some f /\ truthy (filename f) = true
        /\ select_sample (store st) = (Returned resp, s1)
        /\ data resp = []
        /\ fst run = Failure 500 schema_error
        /\ store (snd run) = s1 /\ untouched st (snd run))
  \/ (exists f resp s1 first more e,
        supabase = true /\ file = Some f /\ truthy (filename f) = true
        /\ select_sample (store st) = (Returned resp, s1)
        /\ data resp = first :: more
        /\ read_table f = Raised e
        /\ fst run = Failure 500 (processing_error e)
        /\ store (snd run) = s1 /\ untouched st (snd run))
  \/ (exists f resp s1 first more df,
        supabase = true /\ file = Some f /\ truthy (filename f) = true
        /\ select_sample (store st) = (Returned resp, s1)
        /\ data resp = first :: more
        /\ read_table f = Returned df
        /\ forallb (fun c => mem c (columns df)) required_columns = false
        /\ fst run = Failure 400 missing_columns_error
        /\ store (snd run) = s1 /\ untouched st (snd run))
  \/ (exists f resp s1 first more df,
        supabase = true /\ file = Some f /\ truthy (filename f) = true
        /\ select_sample (store st) = (Returned resp, s1)
        /\ data resp = first :: more
        /\ read_table f = Returned df
        /\ forallb (fun c => mem c (columns df)) required_columns = true
        /\ let final :=
             snd (for_each (iterrows df)
                    (process_row (build_column_map (keys first)))
                    (fresh s1 (calls st))) in
           run = (report final, final)).
Proof.
  cbv zeta. destruct supabase; [right | left; split; reflexivity].
  destruct file as [f|]; [right | left; repeat split].
  destruct (filename f) as [|c name] eqn:Hname.
  { left. exists f. unfold upload_file. rewrite Hname. repeat split. }
  right.
  assert (Ht : truthy (filename f) = true) by (rewrite Hname; reflexivity).
  destruct (select_sample (store st)) as [[resp|e] s1] eqn:Hsel.
  2:{ left. exists f, e, s1. unfold upload_file. rewrite Ht. cbn [negb].
      unfold process_file, bind, execute_select. rewrite Hsel.
      repeat split. }
  right. destruct (data resp) as [|first more] eqn:Hdata.
  { left. exists f, resp, s1. unfold upload_file. rewrite Ht. cbn [negb].
    unfold process_file, bind, execute_select, ret. rewrite Hsel, Hdata.
    repeat split. }
  right. destruct (read_table f) as [df|e] eqn:Hread.
  2:{ left. exists f, resp, s1, first, more, e. unfold upload_file.
      rewrite Ht. cbn [negb].
      unfold process_file, bind, execute_select, lift. rewrite Hsel, Hdata, Hread.
      repeat split. }
  right.
  destruct (forallb (fun c => mem c (columns df)) required_columns) eqn:Hcols.
  - right. exists f, resp, s1, first, more, df.
    repeat (split; [first [reflexivity | assumption]|]).
    apply (upload_file_report _ _ Ht Hsel Hdata Hread Hcols).
  - left. exists f, resp, s1, first, more, df. unfold upload_file.
    rewrite Ht. cbn [negb].
    unfold process_file, bind, execute_select, lift, ret.
    rewrite Hsel, Hdata, Hread, Hcols. repeat split.
Qed.

End Answers.

(** X7. A request answered with an error has changed nothing: its status is
    400 or 500, no update request was sent, no line logged and no label
    recorded, so a request writes to the store only on the way to a
    report. *)
Theorem error_answer_sends_nothing {S : Type} {store_api : Store S}
    (supabase : bool) (file : option upload) (st : state S)
    (status : nat) (error : str) :
  fst (upload_file supabase file st) = Failure status error ->
  (status = 400 \/ status = 500)
  /\ untouched st (snd (upload_file supabase file st)).
Proof.
  intros H.
  destruct (upload_file_cases supabase file st)
    as [[_ E]|[[_ [_ E]]|[[f [_ [_ [_ E]]]]|[C|[C|[C|[C|C]]]]]]].
  - rewrite E in *. injection H as <- _. split; [auto | apply untouched_refl].
  - rewrite E in *. injection H as <- _. split; [auto | apply untouched_refl].
  - rewrite E in *. injection H as <- _. split; [auto | apply untouched_refl].
  - destruct C as [f [e [s1 [_ [_ [_ [_ [E [_ U]]]]]]]]].
    rewrite E in H. injection H as <- _. auto.
  - destruct C as [f [resp [s1 [_ [_ [_ [_ [_ [E [_ U]]]]]]]]]].
    rewrite E in H. injection H as <- _. auto.
  - destruct C as [f [resp [s1 [first [more [e [_ [_ [_ [_ [_ [_ [E [_ U]]]]]]]]]]]]]].
    rewrite E in H. injection H as <- _. auto.
  - destruct C as [f [resp [s1 [first [more [df [_ [_ [_ [_ [_ [_ [_ [E [_ U]]]]]]]]]]]]]]].
    rewrite E in H. injection H as <- _. auto.
  - destruct C as [f [resp [s1 [first [more [df [_ [_ [_ [_ [_ [_ [_ E]]]]]]]]]]]]].
    cbv zeta in E. rewrite E in H. discriminate.
Qed.

Lemma error_answer_sends_nothing_witness :
  fst (upload_file true (Some broken_sheet) (initial participants))
  = Failure 500 (processing_error "No columns to parse from file")
  /\ calls (snd (upload_file true (Some broken_sheet) (initial participants)))
     = [].
Proof.
  split; [reflexivity|].
  exact (proj2 (proj2 (proj2 (proj2 (proj2
    (@error_answer_sends_nothing table table_store true (Some broken_sheet)
       (initial participants) 500
       (processing_error "No columns to parse from file") eq_refl)))))).
Defined.

(** X8. Status 400 is answered in three cases only, the client being
    there in each: the request has no part named file, the file has an
    empty name, or the table was read and lacks a required column. *)
Theorem bad_request_causes {S : Type} {store_api : Store S}
    (supabase : bool) (file : option upload) (st : state S) (error : str) :
  fst (upload_file supabase file st) = Failure 400 error ->
  supabase = true
  /\ ((file = None /\ error = "No file part in the request")
      \/ (exists f, file = Some f /\ filename f = []
                    /\ error = "No file selected")
      \/ (exists f df,
            file = Some f /\ read_table f = Returned df
            /\ forallb (fun c => mem c (columns df)) required_columns = false
            /\ error = missing_columns_error)).
Proof.
  intros H.
  destruct (upload_file_cases supabase file st)
    as [[_ E]|[[Hs [Hf E]]|[[f [Hs [Hf [Hn E]]]]|[C|[C|[C|[C|C]]]]]]].
  - rewrite E in H. discriminate.
  - rewrite E in H. injection H as <-. auto.
  - rewrite E in H. injection H as <-. split; [exact Hs|].
    right. left. exists f. auto.
  - destruct C as [f [e [s1 [_ [_ [_ [_ [E _]]]]]]]].
    rewrite E in H. discriminate.
  - destruct C as [f [resp [s1 [_ [_ [_ [_ [_ [E _]]]]]]]]].
    rewrite E in H. discriminate.
  - destruct C as [f [resp [s1 [first [more [e [_ [_ [_ [_ [_ [_ [E _]]]]]]]]]]]]].
    rewrite E in H. discriminate.
  - destruct C as [f [resp [s1 [first [more [df [Hs [Hf [_ [_ [_ [Hr [Hc [E _]]]]]]]]]]]]]].
    rewrite E in H. injection H as <-. split; [exact Hs|].
    right. right. exists f, df. auto.
  - destruct C as [f [resp [s1 [first [more [df [_ [_ [_ [_ [_ [_ [_ E]]]]]]]]]]]]].
    cbv zeta in E. rewrite E in H. discriminate.
Qed.

Lemma bad_request_causes_witness :
  fst (upload_file true (Some two_column_sheet) (initial participants))
  = Failure 400 missing_columns_error
  /\ exists f df,
       Some two_column_sheet = Some f /\ read_table f = Returned df
       /\ forallb (fun c => mem c (columns df)) required_columns = false.
Proof.
  split; [reflexivity|].
  destruct (@bad_request_causes table table_store true (Some two_column_sheet)
              (initial participants) missing_columns_error eq_refl)
    as [_ [[H _]|[[f [_ [_ H]]]|[f [df [H1 [H2 [H3 _]]]]]]]].
  - discriminate H.
  - discriminate H.
  - exists f, df. auto.
Defined.

(** X9. When the schema probe returns no record the request ends with the
    schema error, status 500, before the file is looked at: the answer and
    the state are the same for every file with a name, and nothing of the
    run has happened. *)
Theorem empty_schema_is_fatal {S : Type} {store_api : Store S}
    (f f' : upload) (st : state S) (resp : api_response) (s1 : S) :
  truthy (filename f) = true -> truthy (filename f') = true ->
  select_sample (store st) = (Returned resp, s1) ->
  data resp = [] ->
  fst (upload_file true (Some f) st) = Failure 500 schema_error
  /\ store (snd (upload_file true (Some f) st)) = s1
  /\ untouched st (snd (upload_file true (Some f) st))
  /\ upload_file true (Some f') st = upload_file true (Some f) st.
Proof.
  intros Hf Hf' Hsel Hdata. unfold upload_file. rewrite Hf, Hf'. cbn [negb].
  unfold process_file, bind, execute_select, ret. rewrite Hsel, Hdata.
  repeat split.
Qed.

Lemma empty_schema_is_fatal_witness :
  select_sample (store (initial ([] : table)))
  = (Returned {| data := []; count := None |}, ([] : table))
  /\ fst (upload_file true (Some ann_sheet) (initial ([] : table)))
     = Failure 500 "Could not fetch schema. Table 'participants' might be empty."
  /\ upload_file true (Some broken_sheet) (initial ([] : table))
     = upload_file true (Some ann_sheet) (initial ([] : table)).
Proof.
  split; [reflexivity|].
  pose proof (@empty_schema_is_fatal table table_store ann_sheet broken_sheet
                (initial ([] : table)) {| data := []; count := None |}
                ([] : table) eq_refl eq_refl eq_refl eq_refl) as H.
  split; [exact (proj1 H) | exact (proj2 (proj2 (proj2 H)))].
Defined.

(** X10. An error raised by the schema probe, or by the decoding of the
    file once the schema is there, is caught by the handler of the request:
    the answer has status 500 and quotes the message of the error, and
    nothing of the run has happened. *)
Theorem raised_error_is_reported {S : Type} {store_api : Store S}
    (f : upload) (st : state S) (e : exn) :
  truthy (filename f) = true ->
  (exists s1, select_sample (store st) = (Raised e, s1))
  \/ (exists resp s1 first more,
        select_sample (store st) = (Returned resp, s1)
        /\ data resp = first :: more /\ read_table f = Raised e) ->
  fst (upload_file true (Some f) st)
  = Failure 500 ("An error occurred while processing the file: " ++ e)
  /\ untouched st (snd (upload_file true (Some f) st)).
Proof.
  intros Hf H. unfold upload_file. rewrite Hf. cbn [negb].
  unfold process_file, bind, execute_select, lift.
  destruct H as [[s1 Hsel]|[resp [s1 [first [more [Hsel [Hdata Hread]]]]]]].
  - rewrite Hsel. repeat split.
  - rewrite Hsel, Hdata, Hread. repeat split.
Qed.

Lemma raised_error_is_reported_witness :
  select_sample (store (initial ([Raised ("timed out" : str)] : script)))
  = (Raised ("timed out" : str), ([] : script))
  /\ fst (upload_file true (Some ann_sheet)
            (initial ([Raised ("timed out" : str)] : script)))
     = Failure 500 "An error occurred while processing the file: timed out".
Proof.
  split; [reflexivity|].
  refine (proj1 (@raised_error_is_reported script scripted_store ann_sheet
                   (initial ([Raised ("timed out" : str)] : script))
                   ("timed out" : str) eq_refl _)).
  left. exists ([] : script). reflexivity.
Defined.

(** X11. Without the client no request is served: when either environment
    variable is unset or empty, or making the client fails, every upload is
    answered with status 500 and the not-initialized message, whatever it
    carries, and the state is left as it was. *)
Theorem missing_configuration_rejects {S : Type} {store_api : Store S}
    (create_client : str -> str -> outcome S)
    (SUPABASE_URL SUPABASE_KEY : option str)
    (file : option upload) (st : state S) :
  SUPABASE_URL = None \/ SUPABASE_URL = Some []
  \/ SUPABASE_KEY = None \/ SUPABASE_KEY = Some []
  \/ (exists url key e,
        SUPABASE_URL = Some url /\ SUPABASE_KEY = Some key
        /\ create_client url key = Raised e) ->
  init_client create_client SUPABASE_URL SUPABASE_KEY = None
  /\ upload_file
       (client_ready (init_client create_client SUPABASE_URL SUPABASE_KEY))
       file st
     = (Failure 500 "Supabase client is not initialized. Check server logs.",
        st).
Proof.
  intros H.
  assert (E : init_client create_client SUPABASE_URL SUPABASE_KEY = None).
  { unfold init_client.
    destruct H as [->|[->|[->|[->|[url [key [e [-> [-> Hc]]]]]]]]].
    - reflexivity.
    - destruct SUPABASE_KEY; reflexivity.
    - destruct SUPABASE_URL; reflexivity.
    - destruct SUPABASE_URL as [u|]; [|reflexivity].
      rewrite andb_false_r. reflexivity.
    - rewrite Hc. destruct (truthy url && truthy key); reflexivity. }
  split; [exact E|]. rewrite E. reflexivity.
Qed.

Lemma missing_configuration_rejects_witness :
  upload_file
    (client_ready
       (init_client (fun _ _ => Returned participants)
                    (Some ("https://x.supabase.co" : str)) (Some [])))
    (Some ann_sheet) (initial participants)
  = (Failure 500 "Supabase client is not initialized. Check server logs.",
     initial participants).
Proof.
  refine (proj2 (@missing_configuration_rejects table table_store
                   (fun _ _ => Returned participants)
                   (Some ("https://x.supabase.co" : str)) (Some [])
                   (Some ann_sheet) (initial participants) _)).
  right. right. right. left. reflexivity.
Defined.

(** ** Lines, requests and the total *)

Section Accounting.

Context {S : Type} {store_api : Store S}.

Implicit Types (st : state S) (row : series) (column_map ud : dict str).

Lemma apply_update_total ud (email user_name : str) st :
  let st' := snd (apply_update ud email user_name st) in
  total_updates st <= total_updates st'
  /\ total_updates st' <= total_updates st + List.length ud.
Proof.
  unfold apply_update, try_except, bind, execute_update, first_name.
  destruct (update_eq ud email (store st)) as [[resp|e] s'].
  - destruct (data resp) as [|record more]; [cbn; lia|].
    destruct (dict_get "name" record) as [v|]; [|cbn; lia].
    destruct (positive (count resp)); cbn; lia.
  - cbn. lia.
Qed.

Lemma process_row_accounts column_map row st :
  let st' := snd (process_row column_map row st) in
  (exists lines,
      update_log st' = update_log st ++ lines
      /\ List.length lines = List.length (row_request column_map row))
  /\ total_updates st <= total_updates st'
  /\ total_updates st'
     <= total_updates st + payload_sizes (row_request column_map row).
Proof.
  cbv zeta. unfold row_request, payload_sizes.
  destruct (notna (series_get "User Email" row)) eqn:He.
  2:{ rewrite process_row_no_email by exact He. simpl.
      split; [exists []; rewrite app_nil_r; auto | lia]. }
  destruct (row_has_labs row) eqn:Hl.
  2:{ rewrite process_row_no_labs by exact Hl. simpl.
      split; [exists []; rewrite app_nil_r; auto | lia]. }
  rewrite process_row_active by assumption. cbv zeta.
  destruct (truthy (row_payload column_map row)); cbn [andb].
  - match goal with
    | |- context [apply_update ?u ?m ?n ?s] =>
        destruct (apply_update_frame u m n s)
          as [_ [_ [_ [_ [_ [line Hline]]]]]];
        pose proof (apply_update_total u m n s) as Ht
    end.
    cbv zeta in Ht. cbn [set_mismatched snd total_updates update_log] in *.
    split; [exists [line]; split; [exact Hline | reflexivity]|].
    unfold list_sum. cbn [map fold_right fst]. lia.
  - simpl. split; [exists []; rewrite app_nil_r; auto | lia].
Qed.



Lemma row_request_length column_map row :
  List.length (row_request column_map row) <= 1.
Proof.
  unfold row_request.
  destruct (notna (series_get "User Email" row) && row_has_labs row
            && truthy (row_payload column_map row)); simpl; lia.
Qed.

Lemma requests_length column_map (rows : list series) :
  List.length (flat_map (row_request column_map) rows) <= List.length rows.
Proof.
  induction rows as [|row rest IH]; [reflexivity|].
  cbn [flat_map]. rewrite length_app.
  pose proof (row_request_length column_map row). simpl. lia.
Qed.

End Accounting.

(** X12. In a request that reaches the loop, the update requests sent are
    those of the rows of the file, one for each row with an email, a label
    text and a payload that is not empty, in the order of the rows: what is
    sent depends on the file and the probed record only, not on what the
    store answers to the requests before, and rows with the same email get
    a request each. *)
Theorem requests_follow_rows {S : Type} {store_api : Store S}
    (f : upload) (st : state S) (resp : api_response) (s1 : S)
    (first : dict str) (more : list (dict str)) (df : dataframe) :
  truthy (filename f) = true ->
  select_sample (store st) = (Returned resp, s1) ->
  data resp = first :: more ->
  read_table f = Returned df ->
  forallb (fun c => mem c (columns df)) required_columns = true ->
  let column_map := build_column_map (keys first) in
  let requests := flat_map (row_request column_map) (iterrows df) in
  calls (snd (upload_file true (Some f) st)) = calls st ++ requests
  /\ List.length requests <= List.length (cells df).
Proof.
  intros Hname Hsel Hdata Hread Hcols. cbv zeta.
  rewrite (upload_file_report _ _ Hname Hsel Hdata Hread Hcols). cbn [snd].
  rewrite rows_calls. split; [reflexivity|].
  etransitivity; [apply requests_length|].
  unfold iterrows. rewrite length_map. reflexivity.
Qed.

Lemma requests_follow_rows_witness :
  calls (snd (upload_file true (Some ann_sheet) (initial participants)))
  = [([item "Foo" "Yes"; item "Bar" "Yes"], "a@x.com" : str);
     ([item "Foo" "Yes"], "a@x.com" : str)].
Proof.
  exact (proj1 (@requests_follow_rows table table_store ann_sheet
                  (initial participants)
                  {| data := participants; count := None |} participants
                  ann_record [] ann_frame
                  eq_refl eq_refl eq_refl eq_refl eq_refl)).
Defined.



(** ** The report *)

(** X14. In every report the list of users not found is empty, nothing
    ever being put in it, and the list of mismatches has no line twice and
    is in the order of Python on texts. *)
Theorem report_shape {S : Type} {store_api : Store S}
    (supabase : bool) (file : option upload) (st : state S)
    (message : str) (details : final_log) :
  fst (upload_file supabase file st) = Success message details ->
  users_not_found details = []
  /\ NoDup (mismatched_lab_names details)
  /\ StronglySorted str_le (mismatched_lab_names details).
Proof.
  intros H.
  destruct (upload_file_cases supabase file st)
    as [[_ E]|[[_ [_ E]]|[[f [_ [_ [_ E]]]]|[C|[C|[C|[C|C]]]]]]];
    try (rewrite E in H; discriminate).
  - destruct C as [f [e [s1 [_ [_ [_ [_ [E _]]]]]]]].
    rewrite E in H. discriminate.
  - destruct C as [f [resp [s1 [_ [_ [_ [_ [_ [E _]]]]]]]]].
    rewrite E in H. discriminate.
  - destruct C as [f [resp [s1 [first [more [e [_ [_ [_ [_ [_ [_ [E _]]]]]]]]]]]]].
    rewrite E in H. discriminate.
  - destruct C as [f [resp [s1 [first [more [df [_ [_ [_ [_ [_ [_ [_ [E _]]]]]]]]]]]]]].
    rewrite E in H. discriminate.
  - destruct C as [f [resp [s1 [first [more [df [_ [_ [_ [_ [_ [_ [_ E]]]]]]]]]]]]].
    cbv zeta in E. rewrite E in H. unfold report in H. cbn [fst] in H.
    injection H as _ <-. cbn [users_not_found mismatched_lab_names].
    split; [apply rows_not_found|].
    split; [apply sorted_NoDup, rows_mismatch_NoDup; constructor|].
    apply sorted_StronglySorted.
Qed.

Lemma report_shape_witness :
  fst (upload_file true (Some ann_sheet) (initial participants))
  = Success
      "Processing complete. Attempted to apply 3 lab completion updates."
      ann_details
  /\ users_not_found ann_details = []
  /\ NoDup (mismatched_lab_names ann_details).
Proof.
  assert (H : fst (upload_file true (Some ann_sheet) (initial participants))
              = Success
                  "Processing complete. Attempted to apply 3 lab completion updates."
                  ann_details)
    by (vm_compute; reflexivity).
  split; [exact H|].
  destruct (@report_shape table table_store true (Some ann_sheet)
              (initial participants) _ _ H) as [H1 [H2 _]].
  split; assumption.
Defined.

(** ** A store that reports no count *)

Section Uncounted.

Context {S : Type} {store_api : Store S}.

Hypothesis no_count :
  forall ud email (s s' : S) resp,
    update_eq ud email s = (Returned resp, s') ->
    positive (count resp) = false.

Lemma apply_update_uncounted (ud : dict str) (email user_name : str)
    (st : state S) :
  let st' := snd (apply_update ud email user_name st) in
  total_updates st' = total_updates st
  /\ exists line,
       update_log st' = update_log st ++ [line] /\ unsuccessful_line line.
Proof.
  unfold apply_update, try_except, bind, execute_update, first_name,
    unsuccessful_line.
  destruct (update_eq ud email (store st)) as [[resp|e] s'] eqn:Hu.
  - destruct (data resp) as [|record more];
      [cbn; split; [reflexivity|]; eexists; split; [reflexivity|]; eauto|].
    destruct (dict_get "name" record) as [v|];
      [|cbn; split; [reflexivity|]; eexists; split; [reflexivity|]; eauto].
    rewrite (no_count _ _ _ Hu). cbn. split; [reflexivity|].
    eexists; split; [reflexivity|]; eauto.
  - cbn. split; [reflexivity|]. eexists; split; [reflexivity|]; eauto.
Qed.

Lemma process_row_uncounted (column_map : dict str) (row : series)
    (st : state S) :
  let st' := snd (process_row column_map row st) in
  total_updates st' = total_updates st
  /\ exists lines,
       update_log st' = update_log st ++ lines
       /\ Forall unsuccessful_line lines.
Proof.
  cbv zeta.
  destruct (notna (series_get "User Email" row)) eqn:He.
  2:{ rewrite process_row_no_email by exact He. simpl.
      split; [reflexivity|]. exists []. rewrite app_nil_r. auto. }
  destruct (row_has_labs row) eqn:Hl.
  2:{ rewrite process_row_no_labs by exact Hl. simpl.
      split; [reflexivity|]. exists []. rewrite app_nil_r. auto. }
  rewrite process_row_active by assumption. cbv zeta.
  destruct (truthy (row_payload column_map row)).
  - match goal with
    | |- context [apply_update ?u ?m ?n ?s] =>
        destruct (apply_update_uncounted u m n s) as [T [line [E P]]]
    end.
    cbv zeta in T, E. cbn [set_mismatched snd total_updates update_log] in *.
    split; [exact T|]. exists [line]. split; [exact E|].
    constructor; [exact P | constructor].
  - simpl. split; [reflexivity|]. exists []. rewrite app_nil_r. auto.
Qed.

Lemma rows_uncounted (column_map : dict str) (rows : list series)
    (st : state S) :
  let st' := snd (for_each rows (process_row column_map) st) in
  total_updates st' = total_updates st
  /\ exists lines,
       update_log st' = update_log st ++ lines
       /\ Forall unsuccessful_line lines.
Proof.
  cbv zeta. revert st. induction rows as [|row rest IH]; intros st.
  - simpl. split; [reflexivity|]. exists []. rewrite app_nil_r. auto.
  - rewrite rows_cons.
    destruct (process_row_uncounted column_map row st) as [T1 [l1 [E1 P1]]].
    destruct (IH (snd (process_row column_map row st))) as [T2 [l2 [E2 P2]]].
    split; [congruence|]. exists (l1 ++ l2).
    rewrite E2, E1, <- app_assoc. split; [reflexivity|].
    apply Forall_app. auto.
Qed.

(** X15. With a store that never reports a positive count, as one that is
    not asked for a count, no request is taken for a success: the total of
    every report is 0 and each line of its updates is a no-new-updates line
    or a FAILED line, whatever the store has changed. *)
Theorem uncounted_store_reports_nothing (supabase : bool)
    (file : option upload) (st : state S) (message : str)
    (details : final_log) :
  fst (upload_file supabase file st) = Success message details ->
  message
  = "Processing complete. Attempted to apply 0 lab completion updates."
  /\ total_updates (snd (upload_file supabase file st)) = 0
  /\ Forall unsuccessful_line (updates details).
Proof.
  intros H.
  destruct (upload_file_cases supabase file st)
    as [[_ E]|[[_ [_ E]]|[[f [_ [_ [_ E]]]]|[C|[C|[C|[C|C]]]]]]];
    try (rewrite E in H; discriminate).
  - destruct C as [f [e [s1 [_ [_ [_ [_ [E _]]]]]]]].
    rewrite E in H. discriminate.
  - destruct C as [f [resp [s1 [_ [_ [_ [_ [_ [E _]]]]]]]]].
    rewrite E in H. discriminate.
  - destruct C as [f [resp [s1 [first [more [e [_ [_ [_ [_ [_ [_ [E _]]]]]]]]]]]]].
    rewrite E in H. discriminate.
  - destruct C as [f [resp [s1 [first [more [df [_ [_ [_ [_ [_ [_ [_ [E _]]]]]]]]]]]]]].
    rewrite E in H. discriminate.
  - destruct C as [f [resp [s1 [first [more [df [_ [_ [_ [_ [_ [_ [_ E]]]]]]]]]]]]].
    cbv zeta in E. rewrite E in *. unfold report in H. cbn [fst snd] in *.
    destruct (rows_uncounted (build_column_map (keys first)) (iterrows df)
                (fresh s1 (calls st))) as [T [lines [L P]]].
    cbv zeta in T, L. cbn [fresh total_updates update_log app] in T, L.
    injection H as <- <-. cbn [updates]. rewrite T, L.
    split; [reflexivity|]. split; [reflexivity | exact P].
Qed.

End Uncounted.

Lemma uncounted_store_reports_nothing_witness :
  (forall ud email (s s' : table) resp,
      @update_eq table uncounted_table ud email s = (Returned resp, s') ->
      positive (count resp) = false)
  /\ fst (@upload_file table uncounted_table true (Some ann_sheet)
            (initial participants))
     = Success
         "Processing complete. Attempted to apply 0 lab completion updates."
         ann_uncounted_details
  /\ Forall unsuccessful_line (updates ann_uncounted_details).
Proof.
  assert (Hq : forall ud email (s s' : table) resp,
             @update_eq table uncounted_table ud email s = (Returned resp, s')
             -> positive (count resp) = false).
  { intros ud email s s' resp H. cbn in H.
    unfold table_update_uncounted, table_update in H.
    injection H as <- _. reflexivity. }
  assert (H : fst (@upload_file table uncounted_table true (Some ann_sheet)
                     (initial participants))
              = Success
                  "Processing complete. Attempted to apply 0 lab completion updates."
                  ann_uncounted_details)
    by (vm_compute; reflexivity).
  split; [exact Hq|]. split; [exact H|].
  exact (proj2 (proj2
    (@uncounted_store_reports_nothing table uncounted_table Hq true
       (Some ann_sheet) (initial participants) _ _ H))).
Defined.

(** ** What is written and what is reported *)

Lemma stage_mismatch_origin (column_map : dict str) (labs : list str)
    (ud : dict str) (mm : list str) (x : str) :
  In x (snd (fold_left (stage_label column_map) labs (ud, mm))) ->
  In x mm
  \/ exists lab, In lab labs /\ lab <> []
                 /\ stage_field column_map lab = None
                 /\ x = mismatch_line lab.
Proof.
  revert ud mm. induction labs as [|l rest IH]; intros ud mm;
    cbn [fold_left]; [auto|].
  rewrite stage_label_cases. intros H.
  assert (Hrest : forall lab,
             In lab rest /\ lab <> [] /\ stage_field column_map lab = None
             /\ x = mismatch_line lab ->
             In lab (l :: rest) /\ lab <> []
             /\ stage_field column_map lab = None /\ x = mismatch_line lab)
    by (intros lab [? ?]; split; [right|]; assumption).
  destruct (stage_field column_map l) as [c|] eqn:Hf.
  - destruct (IH _ _ H) as [H1|[lab Hl]]; [auto|]. right. exists lab. auto.
  - destruct (IH _ _ H) as [H1|[lab Hl]]; [|right; exists lab; auto].
    destruct l as [|c t]; [left; exact H1|]. cbn [truthy] in H1.
    apply set_add_In in H1. destruct H1 as [->|H1]; [|auto].
    right. exists (c :: t). repeat split; [left; reflexivity | discriminate | exact Hf].
Qed.

Lemma mismatch_line_inj (a b : str) :
  mismatch_line a = mismatch_line b -> strip a = strip b.
Proof.
  unfold mismatch_line. intros H. apply app_inv_head in H.
  apply app_inv_tail in H. exact H.
Qed.

Section Written.

Context {S : Type} {store_api : Store S}.

Implicit Types (st : state S) (row : series) (column_map ud : dict str).

Lemma rows_mismatch_origin column_map (rows : list series) st (x : str) :
  In x (mismatched_labs_log
          (snd (for_each rows (process_row column_map) st))) ->
  In x (mismatched_labs_log st)
  \/ exists row lab,
       In row rows
       /\ notna (series_get "User Email" row) = true
       /\ row_has_labs row = true
       /\ In lab (row_labs row) /\ lab <> []
       /\ stage_field column_map lab = None
       /\ x = mismatch_line lab.
Proof.
  revert st. induction rows as [|row rest IH]; intros st; [auto|].
  rewrite rows_cons. intros H.
  destruct (IH _ H) as [H1|[r [lab [Hr Hrest]]]];
    [|right; exists r, lab; split; [right; exact Hr | exact Hrest]].
  rewrite process_row_mismatched in H1.
  destruct (notna (series_get "User Email" row)) eqn:He; [|auto].
  destruct (row_has_labs row) eqn:Hl; [|auto]. cbn [andb] in H1.
  destruct (stage_mismatch_origin _ _ _ _ _ H1) as [H2|[lab [Hin H3]]];
    [auto|].
  right. exists row, lab. split; [left; reflexivity|]. auto.
Qed.

Lemma process_row_store column_map row st :
  store (snd (process_row column_map row st))
  = after_requests (row_request column_map row) (store st).
Proof.
  unfold row_request, after_requests.
  destruct (notna (series_get "User Email" row)) eqn:He;
    [|rewrite process_row_no_email by exact He; reflexivity].
  destruct (row_has_labs row) eqn:Hl;
    [|rewrite process_row_no_labs by exact Hl; reflexivity].
  rewrite process_row_active by assumption. cbv zeta.
  destruct (truthy (row_payload column_map row)); cbn [andb];
    [|reflexivity].
  match goal with
  | |- store (snd (apply_update ?u ?m ?n ?s)) = _ =>
      destruct (apply_update_frame u m n s) as [_ [_ [-> _]]]
  end.
  reflexivity.
Qed.

Lemma rows_store column_map (rows : list series) st :
  store (snd (for_each rows (process_row column_map) st))
  = after_requests (flat_map (row_request column_map) rows) (store st).
Proof.
  revert st. induction rows as [|row rest IH]; intros st; [reflexivity|].
  rewrite rows_cons, IH, process_row_store. cbn [flat_map].
  unfold after_requests. rewrite fold_left_app. reflexivity.
Qed.

Lemma request_payload column_map row ud (email : str) :
  In (ud, email) (row_request column_map row) ->
  ud = row_payload column_map row /\ email = row_email row /\ ud <> []
  /\ notna (series_get "User Email" row) = true
  /\ row_has_labs row = true.
Proof.
  unfold row_request.
  destruct (notna (series_get "User Email" row)); [|intros []].
  destruct (row_has_labs row); [|intros []].
  destruct (row_payload column_map row) as [|kv t] eqn:E; [intros []|].
  cbn [andb truthy]. intros [H|[]]. injection H as <- <-.
  repeat split. discriminate.
Qed.

End Written.

(** X16. Every update request of a request that reaches the loop has a
    payload that is not empty, has no field twice, sets every field to Yes,
    and names only fields that are keys of the record the schema probe
    returned: no name taken from the file reaches the store as a field. *)
Theorem payload_fields_are_columns {S : Type} {store_api : Store S}
    (f : upload) (st : state S) (resp : api_response) (s1 : S)
    (first : dict str) (more : list (dict str)) (df : dataframe)
    (ud : dict str) (email : str) :
  truthy (filename f) = true ->
  select_sample (store st) = (Returned resp, s1) ->
  data resp = first :: more ->
  read_table f = Returned df ->
  forallb (fun c => mem c (columns df)) required_columns = true ->
  In (ud, email) (calls (snd (upload_file true (Some f) st))) ->
  In (ud, email) (calls st)
  \/ (ud <> []
      /\ NoDup (keys ud)
      /\ forall k v, In (k, v) ud ->
                     v = ("Yes" : str) /\ In k (keys first)).
Proof.
  intros Hname Hsel Hdata Hread Hcols.
  rewrite (upload_file_report _ _ Hname Hsel Hdata Hread Hcols). cbn [snd].
  rewrite rows_calls. cbn [fresh calls]. rewrite in_app_iff, in_flat_map.
  intros [H|[row [_ Hreq]]]; [left; exact H | right].
  destruct (request_payload _ _ _ _ Hreq) as [-> [_ [Hne _]]].
  split; [exact Hne|]. split.
  - rewrite payload_keys. apply fold_set_add_NoDup. constructor.
  - intros k v Hin. unfold row_payload, stage_labels in Hin.
    destruct (stage_origin _ _ _ _ _ _ Hin) as [[]|[Hv [lab [_ Hf]]]].
    split; [exact Hv|]. apply stage_field_inv in Hf. destruct Hf as [_ Hget].
    apply dict_get_In in Hget.
    destruct (column_fold_entries _ _ _ _ Hget) as [[]|[Hk _]]. exact Hk.
Qed.

Lemma payload_fields_are_columns_witness :
  In ([item "Foo" "Yes"; item "Bar" "Yes"], "a@x.com" : str)
     (calls (snd (upload_file true (Some ann_sheet) (initial participants))))
  /\ forall k v, In (k, v) [item "Foo" "Yes"; item "Bar" "Yes"] ->
                 v = ("Yes" : str) /\ In k (keys ann_record).
Proof.
  assert (Hin : In ([item "Foo" "Yes"; item "Bar" "Yes"], "a@x.com" : str)
                   (calls (snd (upload_file true (Some ann_sheet)
                                  (initial participants)))))
    by (vm_compute; left; reflexivity).
  split; [exact Hin|].
  destruct (@payload_fields_are_columns table table_store ann_sheet
              (initial participants)
              {| data := participants; count := None |} participants
              ann_record [] ann_frame _ _
              eq_refl eq_refl eq_refl eq_refl eq_refl Hin) as [[]|[_ [_ H]]].
  exact H.
Defined.

(** X17. Every line in the mismatches of a report quotes a label of a
    processed row of the file that no column stands for, and a label that
    is staged is never among them: the report blames no label that was
    written. *)
Theorem mismatches_are_unmatched_labels {S : Type} {store_api : Store S}
    (f : upload) (st : state S) (resp : api_response) (s1 : S)
    (first : dict str) (more : list (dict str)) (df : dataframe) :
  truthy (filename f) = true ->
  select_sample (store st) = (Returned resp, s1) ->
  data resp = first :: more ->
  read_table f = Returned df ->
  forallb (fun c => mem c (columns df)) required_columns = true ->
  let column_map := build_column_map (keys first) in
  exists message details,
    fst (upload_file true (Some f) st) = Success message details
    /\ (forall line, In line (mismatched_lab_names details) ->
          exists row lab,
            In row (iterrows df)
            /\ notna (series_get "User Email" row) = true
            /\ In lab (row_labs row) /\ lab <> []
            /\ stage_field column_map lab = None
            /\ line
               = "'" ++ lab
                     ++ "' from file did not match any database column.")
    /\ (forall lab col,
          strip lab = lab -> stage_field column_map lab = Some col ->
          ~ In (mismatch_line lab) (mismatched_lab_names details)).
Proof.
  intros Hname Hsel Hdata Hread Hcols. cbv zeta.
  rewrite (upload_file_report _ _ Hname Hsel Hdata Hread Hcols). cbn [fst].
  unfold report. do 2 eexists. split; [reflexivity|].
  cbn [mismatched_lab_names].
  assert (Horigin : forall line,
             In line (sorted (mismatched_labs_log
                (snd (for_each (iterrows df)
                        (process_row (build_column_map (keys first)))
                        (fresh s1 (calls st)))))) ->
             exists row lab,
               In row (iterrows df)
               /\ notna (series_get "User Email" row) = true
               /\ In lab (row_labs row) /\ lab <> []
               /\ stage_field (build_column_map (keys first)) lab = None
               /\ line = mismatch_line lab).
  { intros line Hin. apply (proj1 (sorted_In _ _)) in Hin.
    destruct (rows_mismatch_origin _ _ _ _ Hin)
      as [[]|[row [lab [H1 [H2 [_ [H4 [H5 [H6 H7]]]]]]]]].
    exists row, lab. auto 10. }
  split.
  - intros line Hin.
    destruct (Horigin _ Hin) as [row [lab [H1 [H2 [H4 [H5 [H6 H7]]]]]]].
    exists row, lab. repeat (split; [assumption|]).
    rewrite H7. unfold mismatch_line.
    rewrite (row_labs_stripped _ _ H4). reflexivity.
  - intros lab col Hs Hf Hin.
    destruct (Horigin _ Hin) as [row [lab' [_ [_ [H4 [_ [H6 H7]]]]]]].
    apply mismatch_line_inj in H7.
    rewrite Hs, (row_labs_stripped _ _ H4) in H7. subst lab'.
    rewrite Hf in H6. discriminate.
Qed.

Lemma mismatches_are_unmatched_labels_witness :
  stage_field sample_map "Foo" = Some ("Foo" : str)
  /\ ~ In (mismatch_line "Foo") (mismatched_lab_names ann_details).
Proof.
  split; [reflexivity|].
  destruct (@mismatches_are_unmatched_labels table table_store ann_sheet
              (initial participants)
              {| data := participants; count := None |} participants
              ann_record [] ann_frame
              eq_refl eq_refl eq_refl eq_refl eq_refl)
    as [message [details [Hrun [_ H]]]].
  assert (E : fst (upload_file true (Some ann_sheet) (initial participants))
              = Success
                  "Processing complete. Attempted to apply 3 lab completion updates."
                  ann_details)
    by (vm_compute; reflexivity).
  rewrite E in Hrun. injection Hrun as _ <-.
  apply (H ("Foo" : str) ("Foo" : str)); reflexivity.
Defined.

(** X18. A row whose label cell is missing or blank, or holds nothing but
    bars and whitespace, is passed over: processing it returns, sends no
    request, logs no line, records no mismatch and leaves the store as it
    was. *)
Theorem row_without_labels_is_skipped {S : Type} {store_api : Store S}
    (column_map : dict str) (row : series) (st : state S) :
  row_has_labs row = false
  \/ (forall lab, In lab (row_labs row) -> lab = []) ->
  fst (process_row column_map row st) = Returned tt
  /\ untouched st (snd (process_row column_map row st))
  /\ store (snd (process_row column_map row st)) = store st
  /\ row_request column_map row = [].
Proof.
  intros H. split; [apply process_row_returns|].
  assert (Hreq : row_request column_map row = []).
  { unfold row_request. destruct H as [->|H];
      [rewrite andb_false_r; reflexivity|].
    assert (E : row_payload column_map row = []).
    { unfold row_payload, stage_labels.
      assert (G : forall labs acc,
                 (forall lab, In lab labs -> lab = []) ->
                 fold_left (stage_label column_map) labs acc = acc).
      { induction labs as [|l rest IH]; intros acc Hl; [reflexivity|].
        cbn [fold_left]. rewrite (Hl l) by (left; reflexivity).
        destruct acc as [ud mm]. cbn [stage_label truthy negb].
        apply IH. intros lab Hin. apply Hl. right. exact Hin. }
      rewrite G by exact H. reflexivity. }
    rewrite E, andb_false_r. reflexivity. }
  assert (Hmm : mismatched_labs_log (snd (process_row column_map row st))
                = mismatched_labs_log st).
  { rewrite process_row_mismatched. destruct H as [->|H];
      [rewrite andb_false_r; reflexivity|].
    destruct (notna (series_get "User Email" row) && row_has_labs row);
      [|reflexivity].
    unfold stage_labels.
    assert (G : forall labs acc,
               (forall lab, In lab labs -> lab = []) ->
               fold_left (stage_label column_map) labs acc = acc).
    { induction labs as [|l rest IH]; intros acc Hl; [reflexivity|].
      cbn [fold_left]. rewrite (Hl l) by (left; reflexivity).
      destruct acc as [ud mm]. cbn [stage_label truthy negb].
      apply IH. intros lab Hin. apply Hl. right. exact Hin. }
    rewrite G by exact H. reflexivity. }
  destruct (process_row_accounts column_map row st) as [[lines [E L]] [T1 T2]].
  rewrite Hreq in L, T2. destruct lines; [|discriminate].
  rewrite app_nil_r in E. unfold payload_sizes in T2. simpl in T2.
  split; [|split; [|exact Hreq]].
  - unfold untouched. split; [exact E|]. split; [lia|].
    split; [apply process_row_not_found|]. split; [exact Hmm|].
    rewrite process_row_calls, Hreq. apply app_nil_r.
  - rewrite process_row_store, Hreq. reflexivity.
Qed.

Lemma row_without_labels_is_skipped_witness :
  let row := sheet_row (Val "Ann") (Val "a@x.com") (Val " | |  ") in
  row_has_labs row = true
  /\ (forall lab, In lab (row_labs row) -> lab = [])
  /\ row_request sample_map row = [].
Proof.
  cbv zeta.
  assert (H : forall lab,
             In lab (row_labs (sheet_row (Val "Ann") (Val "a@x.com")
                                 (Val " | |  "))) -> lab = []).
  { vm_compute. intros lab [<-|[<-|[<-|[]]]]; reflexivity. }
  split; [reflexivity|]. split; [exact H|].
  exact (proj2 (proj2 (proj2
    (@row_without_labels_is_skipped table table_store sample_map _
       (initial participants) (or_intror H))))).
Defined.

(** ** The name in a line and the store after a run *)

Lemma row_user_name_logged (row : series) :
  row_user_name row = logged_name row.
Proof.
  unfold row_user_name, logged_name, row_email.
  destruct (series_get "User Name" row); reflexivity.
Qed.

Lemma apply_update_line {S : Type} {store_api : Store S} (ud : dict str)
    (email user_name : str) (st : state S) :
  exists line,
    update_log (snd (apply_update ud email user_name st))
    = update_log st ++ [line]
    /\ (line = updated_line (List.length ud) user_name (keys ud)
        \/ line = no_updates_line user_name
        \/ exists e, line = failed_line user_name e).
Proof.
  unfold apply_update, try_except, bind, execute_update, first_name.
  destruct (update_eq ud email (store st)) as [[resp|e] s'].
  - destruct (data resp) as [|record more];
      [cbn; eexists; split; [reflexivity|]; eauto|].
    destruct (dict_get "name" record) as [v|];
      [|cbn; eexists; split; [reflexivity|]; eauto].
    destruct (positive (count resp)); cbn; eexists;
      (split; [reflexivity|]); eauto.
  - cbn. eexists. split; [reflexivity|]. eauto.
Qed.

(** X19. A row that sends a request logs exactly one line, of one of three
    forms, and the line names the row by its trimmed name cell, or by its
    trimmed email when the name cell is missing; a name cell of blanks only
    is not missing, and names the row by the empty text. *)
Theorem logged_line_names_row {S : Type} {store_api : Store S}
    (column_map : dict str) (row : series) (st : state S) :
  notna (series_get "User Email" row) = true ->
  row_has_labs row = true ->
  truthy (row_payload column_map row) = true ->
  let ud := row_payload column_map row in
  let user_name := logged_name row in
  exists line,
    update_log (snd (process_row column_map row st))
    = update_log st ++ [line]
    /\ (line = updated_line (List.length ud) user_name (keys ud)
        \/ line = no_updates_line user_name
        \/ exists e, line = failed_line user_name e).
Proof.
  intros He Hl Hud. cbv zeta.
  rewrite process_row_active by assumption. cbv zeta. rewrite Hud.
  rewrite row_user_name_logged.
  match goal with
  | |- context [apply_update ?u ?m ?n ?s] =>
      destruct (apply_update_line u m n s) as [line [E P]]
  end.
  exists line. split; [exact E | exact P].
Qed.

Lemma logged_line_names_row_witness :
  let row := sheet_row NA (Val " b@x.com ") (Val "Foo") in
  logged_name row = ("b@x.com" : str)
  /\ exists line,
       update_log (snd (process_row sample_map row (initial participants)))
       = [line]
       /\ (line = updated_line 1 "b@x.com" ["Foo" : str]
           \/ line = no_updates_line "b@x.com"
           \/ exists e, line = failed_line "b@x.com" e).
Proof.
  cbv zeta. split; [reflexivity|].
  exact (@logged_line_names_row table table_store sample_map
           (sheet_row NA (Val " b@x.com ") (Val "Foo"))
           (initial participants) eq_refl eq_refl eq_refl).
Defined.

(** X20. A request that reaches the loop leaves the store as the schema
    probe followed by its update requests, sent one after the other in the
    order of the rows, leave it: the store is asked nothing else, and a
    request that fails does not keep the later ones from being sent. *)
Theorem store_after_run {S : Type} {store_api : Store S}
    (f : upload) (st : state S) (resp : api_response) (s1 : S)
    (first : dict str) (more : list (dict str)) (df : dataframe) :
  truthy (filename f) = true ->
  select_sample (store st) = (Returned resp, s1) ->
  data resp = first :: more ->
  read_table f = Returned df ->
  forallb (fun c => mem c (columns df)) required_columns = true ->
  let column_map := build_column_map (keys first) in
  store (snd (upload_file true (Some f) st))
  = after_requests (flat_map (row_request column_map) (iterrows df)) s1.
Proof.
  intros Hname Hsel Hdata Hread Hcols. cbv zeta.
  rewrite (upload_file_report _ _ Hname Hsel Hdata Hread Hcols). cbn [snd].
  rewrite rows_store. reflexivity.
Qed.

Lemma store_after_run_witness :
  store (snd (upload_file true (Some ann_sheet) (initial participants)))
  = [[item "name" "Ann"; item "email" "a@x.com"; item "Foo" "Yes";
      item "Bar" "Yes"]].
Proof.
  exact (@store_after_run table table_store ann_sheet
           (initial participants)
           {| data := participants; count := None |} participants
           ann_record [] ann_frame
           eq_refl eq_refl eq_refl eq_refl eq_refl).
Defined.
